(** * TkFontAwesome: icon lookup and SVG rendering

    A shallow embedding of [tkfontawesome/__init__.py].  The module has
    three functions that matter:

    - [_collect_svg_files] / [_get_icon_file]: list the three asset
      directories and pick the first file whose stem is the icon name;
    - [svg_to_image]: open, parse, optionally set the root [fill]
      attribute, serialise, build the keyword dictionary and call
      [tksvg.SvgImage];
    - [icon_to_image]: the first followed by the second.

    Everything outside the module (the file system, lxml, tksvg) is
    gathered in a record [World]; the functions are written in a small
    monad that carries Python exceptions and a log of the calls made to
    that outside world. *)

From Stdlib Require Import Floats Ascii.
From stdpp Require Import base option list strings gmap.


(** ** Python values *)

(** The scalar values the optional arguments can take.  [PyBytes] is the
    result of [BytesIO.getvalue()]. *)
Inductive pyval : Type :=
  | PyNone
  | PyBool (b : bool)
  | PyInt (z : Z)
  | PyFloat (f : float)
  | PyStr (s : string)
  | PyBytes (b : string).

(** Truth value of an object in a condition, [if v:]. *)
Definition truthy (v : pyval) : bool :=
  match v with
  | PyNone => false
  | PyBool b => b
  | PyInt z => negb (z =? 0)%Z
  | PyFloat f => negb (PrimFloat.eqb f PrimFloat.zero)
  | PyStr s => negb (String.eqb s "")
  | PyBytes b => negb (String.eqb b "")
  end.

(** [v == 1], with Python's numeric tower: [True == 1] and [1.0 == 1]. *)
Definition py_eq_one (v : pyval) : bool :=
  match v with
  | PyBool b => b
  | PyInt z => (z =? 1)%Z
  | PyFloat f => PrimFloat.eqb f PrimFloat.one
  | PyNone | PyStr _ | PyBytes _ => false
  end.

(** [v != 1]. *)
Definition py_ne_one (v : pyval) : bool := negb (py_eq_one v).

(** [v is not None]. *)
Definition is_not_None (v : pyval) : bool :=
  match v with
  | PyNone => false
  | _ => true
  end.

(** ** Paths *)

(** A [pathlib.Path], as the list of its components. *)
Definition Path : Type := list string.

(** [p.joinpath] with relative components. *)
Definition joinpath (p : Path) (more : list string) : Path := p ++ more.

(** [p.name]: the final component, or the empty string. *)
Definition name (p : Path) : string := default "" (last p).

(** [p.parent]. *)
Definition parent (p : Path) : Path := removelast p.

(** [s.rfind(c)], with [None] for -1. *)
Fixpoint rfind (c : Ascii.ascii) (s : string) : option nat :=
  match s with
  | EmptyString => None
  | String a s' =>
      match rfind c s' with
      | Some i => Some (S i)
      | None => if Ascii.eqb a c then Some 0 else None
      end
  end.

(** The stem of a file name, as [pathlib] computes it: the name up to
    its last dot, unless that dot is the first or the last character. *)
Definition stem_of_name (n : string) : string :=
  match rfind "."%char n with
  | Some i =>
      if (0 <? i) && (i <? String.length n - 1) then String.substring 0 i n else n
  | None => n
  end.

(** [p.stem]. *)
Definition stem (p : Path) : string := stem_of_name (name p).

(** ** Exceptions *)

Inductive oserror : Type :=
  | FileNotFoundError
  | NotADirectoryError
  | IsADirectoryError
  | PermissionError.

Inductive exn : Type :=
  | Exception (msg : string)
  | OSError (kind : oserror) (path : Path)
  | TypeError (msg : string)
  | XMLSyntaxError (msg : string)
  | ValueError (msg : string)
  | TclError (msg : string).

(** ** XML documents *)

(** An lxml element: tag, attributes in document order, text, children
    and tail. *)
#[local] Set Warnings "-register-all".
Inductive Element : Type :=
  | Elem (tag : string) (attrib : list (string * string)) (text : string)
         (children : list Element) (tail : string).

Definition tag (e : Element) : string := let 'Elem t _ _ _ _ := e in t.
Definition attrib (e : Element) : list (string * string) :=
  let 'Elem _ a _ _ _ := e in a.
Definition text (e : Element) : string := let 'Elem _ _ x _ _ := e in x.
Definition children (e : Element) : list Element := let 'Elem _ _ _ c _ := e in c.
Definition tail (e : Element) : string := let 'Elem _ _ _ _ x := e in x.

(** A parsed document: what precedes the root (declaration, doctype)
    and the root element. *)
Record ElementTree : Type := { docinfo : string; getroot : Element }.

(** [attrib.get(k)]. *)
Fixpoint attrib_get (k : string) (a : list (string * string)) : option string :=
  match a with
  | [] => None
  | (k', v') :: rest => if String.eqb k' k then Some v' else attrib_get k rest
  end.

(** [attrib[k] = v]: overwrite in place, or append. *)
Fixpoint attrib_set (k v : string) (a : list (string * string))
  : list (string * string) :=
  match a with
  | [] => [(k, v)]
  | (k', v') :: rest =>
      if String.eqb k' k then (k', v) :: rest else (k', v') :: attrib_set k v rest
  end.

(** The tree once [root.attrib[k] = v] has gone through, for
    [root = tree.getroot()].  [root] is the tree's own root node, so the
    assignment is seen by a later [tree.write]. *)
Definition put_root_attrib (k v : string) (tree : ElementTree) : ElementTree :=
  let 'Elem t a x c l := getroot tree in
  {| docinfo := docinfo tree; getroot := Elem t (attrib_set k v a) x c l |}.

(** Every attribute value of the root passes the test [ok]. *)
Definition root_values_ok (ok : string → bool) (tree : ElementTree) : bool :=
  forallb (λ kv, ok kv.2) (attrib (getroot tree)).

(** The message of the [ValueError] lxml raises for a string it does
    not take as an attribute value. *)
Definition not_xml_compatible : string :=
  "All strings must be XML compatible: Unicode or ASCII, no NULL bytes or control characters".

(** ** The outside world and the call log *)

(** The handle [tksvg.SvgImage] returns: a Tk image name. *)
Inductive image : Type := Image (tkname : string).

(** What [svg_to_image] is given as [source]: a file name, or an open
    file object (of which only the content matters here). *)
Inductive source : Type :=
  | SrcPath (p : Path)
  | SrcFile (content : string).

Inductive outcome (A : Type) : Type :=
  | Returned (a : A)
  | Raised (e : exn).
Arguments Returned {A} a.
Arguments Raised {A} e.

Record World : Type := {
  (** [Path(__file__).parent] *)
  package_dir : Path;
  (** [os.listdir], behind [Path.iterdir] *)
  listdir : Path → oserror + list string;
  (** opening a path and reading its text *)
  read_text : Path → oserror + string;
  (** [lxml.etree.parse] on the text read *)
  etree_parse : string → outcome ElementTree;
  (** [ElementTree.write] into a [BytesIO] *)
  etree_write : ElementTree → string;
  (** lxml's test of a [str] assigned as an attribute value: it refuses
      NUL bytes and control characters *)
  xml_compatible : string → bool;
  (** what the parser builds passes that test: an XML document cannot
      carry the characters it refuses (stated for the root, the one
      element the module assigns to) *)
  parsed_attrib_ok : ∀ content tree,
    etree_parse content = Returned tree →
    root_values_ok xml_compatible tree = true;
  (** [tksvg.SvgImage] called with keyword arguments *)
  SvgImage : gmap string pyval → outcome image;
}.

(** Calls that reach the outside world. *)
Inductive event : Type :=
  | EvIterdir (dir : Path)
  | EvOpen (p : Path)
  | EvParse (content : string)
  | EvSvgImage (kw : gmap string pyval).

(** A computation: the calls it made, and how it ended. *)
Definition M (A : Type) : Type := list event * outcome A.

Definition raise {A} (e : exn) : M A := ([], Raised e).
Definition emit (ev : event) : M unit := ([ev], Returned tt).

#[global] Instance M_ret : MRet M := λ A a, ([], Returned a).
#[global] Instance M_bind : MBind M := λ A B k m,
  match m with
  | (t, Raised e) => (t, Raised e)
  | (t, Returned a) => let '(t', r) := k a in (t ++ t', r)
  end.

Definition trace {A} (m : M A) : list event := m.1.
Definition result {A} (m : M A) : outcome A := m.2.

(** ** The module's functions *)

Section Program.
Variable w : World.

(** [dir.iterdir()], consumed at once by [files.extend]: the
    children of [dir], or the [OSError] of a directory that cannot be
    listed. *)
Definition iterdir (dir : Path) : M (list Path) :=
  _ ← emit (EvIterdir dir);
  match listdir w dir with
  | inl err => raise (OSError err dir)
  | inr names => mret ((λ n, joinpath dir [n]) <$> names)
  end.

Definition _collect_svg_files : M (list Path) :=
  let files := [] in
  let root := package_dir w in
  brands ← iterdir (joinpath root ["svgs"; "brands"]);
  let files := files ++ brands in
  regular ← iterdir (joinpath root ["svgs"; "regular"]);
  let files := files ++ regular in
  solid ← iterdir (joinpath root ["svgs"; "solid"]);
  let files := files ++ solid in
  mret files.

(** The message of the exception for an unknown icon (an f-string). *)
Definition not_valid_icon_name (icon : string) : string :=
  "'" +:+ icon +:+
  "' is not a valid icon name. Check spelling and consult https://fontawesome.com/v5.0/icons.".

(** The [for file in files] loop of [_get_icon_file], with the
    [raise] that follows it. *)
Fixpoint scan_files (icon : string) (files : list Path) : M Path :=
  match files with
  | [] => raise (Exception (not_valid_icon_name icon))
  | file :: rest =>
      if String.eqb (stem file) icon then mret file else scan_files icon rest
  end.

Definition _get_icon_file (icon : string) : M Path :=
  files ← _collect_svg_files;
  scan_files icon files.

(** [open(source)]: a path is opened on the file system; anything
    that is not a path is refused with a [TypeError]. *)
Definition py_open (src : source) : M string :=
  match src with
  | SrcPath p =>
      _ ← emit (EvOpen p);
      match read_text w p with
      | inl err => raise (OSError err p)
      | inr content => mret content
      end
  | SrcFile _ =>
      raise (TypeError
        "expected str, bytes or os.PathLike object, not TextIOWrapper")
  end.

(** [etree.parse(source=p)]. *)
Definition parse (content : string) : M ElementTree :=
  _ ← emit (EvParse content);
  (([], etree_parse w content) : M ElementTree).

(** [tksvg.SvgImage] applied to the keyword dictionary. *)
Definition call_SvgImage (kw : gmap string pyval) : M image :=
  _ ← emit (EvSvgImage kw);
  (([], SvgImage w kw) : M image).

(** [root = tree.getroot(); root.attrib[k] = v].  lxml tests the value
    first and raises [ValueError] for a string it does not take; the
    assignment then does not happen. *)
Definition set_root_attrib (k v : string) (tree : ElementTree) : M ElementTree :=
  if xml_compatible w v then mret (put_root_attrib k v tree)
  else raise (ValueError not_xml_compatible).

Definition svg_to_image (src : source) (fill : option string)
    (scale_to_width scale_to_height scale : pyval) : M image :=
  p ← py_open src;
  tree ← parse p;
  tree ← match fill with
         | Some fill => set_root_attrib "fill" fill tree
         | None => mret tree
         end;
  let imgdata := etree_write w tree in
  let kw : gmap string pyval := {[ "data" := PyBytes imgdata ]} in
  let kw := if truthy scale_to_width
            then <[ "scaletowidth" := scale_to_width ]> kw else kw in
  let kw := if truthy scale_to_height
            then <[ "scaletoheight" := scale_to_height ]> kw else kw in
  let kw := if py_ne_one scale then <[ "scale" := scale ]> kw else kw in
  call_SvgImage kw.

Definition icon_to_image (icon : string) (fill : option string)
    (scale_to_width scale_to_height scale : pyval) : M image :=
  file ← _get_icon_file icon;
  img_data ← svg_to_image (SrcPath file) fill scale_to_width scale_to_height scale;
  mret img_data.

End Program.

(** The three asset directories, in the order they are listed. *)
Definition brands_dir (w : World) : Path := joinpath (package_dir w) ["svgs"; "brands"].
Definition regular_dir (w : World) : Path := joinpath (package_dir w) ["svgs"; "regular"].
Definition solid_dir (w : World) : Path := joinpath (package_dir w) ["svgs"; "solid"].

(** The paths [iterdir] yields for a directory with the given names. *)
Definition entries (dir : Path) (names : list string) : list Path :=
  (λ n, joinpath dir [n]) <$> names.

(** [sub in s] for strings. *)
Definition contains (sub s : string) : Prop :=
  ∃ pre post, s = pre +:+ sub +:+ post.

(** ** Vocabulary for the statements *)

(** The tree [svg_to_image] serialises, given the parsed one. *)
Definition written_tree (fill : option string) (tree : ElementTree) : ElementTree :=
  match fill with
  | Some v => put_root_attrib "fill" v tree
  | None => tree
  end.

(** The dictionary built for the renderer from the serialised bytes. *)
Definition keywords (imgdata : string) (scale_to_width scale_to_height scale : pyval)
  : gmap string pyval :=
  let kw : gmap string pyval := {[ "data" := PyBytes imgdata ]} in
  let kw := if truthy scale_to_width
            then <[ "scaletowidth" := scale_to_width ]> kw else kw in
  let kw := if truthy scale_to_height
            then <[ "scaletoheight" := scale_to_height ]> kw else kw in
  if py_ne_one scale then <[ "scale" := scale ]> kw else kw.

(** [svg_to_image] called [tksvg.SvgImage] with the dictionary [kw]. *)
Definition config_passed (w : World) (src : source) (fill : option string)
    (scale_to_width scale_to_height scale : pyval) (kw : gmap string pyval) : Prop :=
  EvSvgImage kw ∈ trace (svg_to_image w src fill scale_to_width scale_to_height scale).

(** The [fill] argument is [None] or a string lxml takes. *)
Definition fill_accepted (w : World) (fill : option string) : bool :=
  match fill with
  | Some v => xml_compatible w v
  | None => true
  end.

(** Rendering with [fill=v] reaches the renderer with the bytes of a
    document whose root has [fill] equal to [v], read for every string
    [v]. *)
Definition fill_reaches_renderer (w : World) (src : source) (v : string)
    (scale_to_width scale_to_height scale : pyval) : Prop :=
  ∃ tree' kw,
    config_passed w src (Some v) scale_to_width scale_to_height scale kw ∧
    kw !! "data" = Some (PyBytes (etree_write w tree')) ∧
    attrib_get "fill" (attrib (getroot tree')) = Some v.

(** The size keys, read as following [is not None]: present, with the
    argument's value, exactly for the arguments that are not [None]. *)
Definition size_keys_follow_not_None (w : World) (src : source)
    (fill : option string) (scale_to_width scale_to_height scale : pyval) : Prop :=
  ∀ kw, config_passed w src fill scale_to_width scale_to_height scale kw →
    kw !! "scaletowidth"
      = (if is_not_None scale_to_width then Some scale_to_width else None) ∧
    kw !! "scaletoheight"
      = (if is_not_None scale_to_height then Some scale_to_height else None).

(** The icon lookup as the specification words it: render what the
    resolver returns; an error of either is the error of the whole. *)
Definition render_of_resolve (w : World) (icon : string) (fill : option string)
    (scale_to_width scale_to_height scale : pyval) : M image :=
  match _get_icon_file w icon with
  | (t, Raised e) => (t, Raised e)
  | (t, Returned file) =>
      let '(t', r) :=
        svg_to_image w (SrcPath file) fill scale_to_width scale_to_height scale in
      (t ++ t', r)
  end.

(** An event of the directory listing, as opposed to opening, parsing
    or rendering. *)
Definition is_listing (ev : event) : bool :=
  match ev with
  | EvIterdir _ => true
  | _ => false
  end.

(** ** A small asset store to run the functions on *)

Module Demo.

Definition pkg : Path := ["site-packages"; "tkfontawesome"].

Definition facebook_text : string :=
  "<svg viewBox='0 0 512 512' fill='black'><path d='M504 256z'/></svg>".
Definition bell_text : string :=
  "<svg viewBox='0 0 448 512'><path d='M224 512z'/></svg>".

Definition facebook_tree : ElementTree :=
  {| docinfo := "";
     getroot := Elem "svg" [("viewBox", "0 0 512 512"); ("fill", "black")] ""
                  [Elem "path" [("d", "M504 256z")] "" [] ""] "" |}.
Definition bell_tree : ElementTree :=
  {| docinfo := "";
     getroot := Elem "svg" [("viewBox", "0 0 448 512")] ""
                  [Elem "path" [("d", "M224 512z")] "" [] ""] "" |}.

Definition write_attrib (a : list (string * string)) : string :=
  foldr (λ kv acc, " " +:+ kv.1 +:+ "='" +:+ kv.2 +:+ "'" +:+ acc) "" a.

Fixpoint write_element (e : Element) : string :=
  let 'Elem t a x c l := e in
  "<" +:+ t +:+ write_attrib a +:+ ">" +:+ x +:+
  (fix write_all (es : list Element) : string :=
     match es with
     | [] => ""
     | e' :: es' => write_element e' +:+ write_all es'
     end) c +:+
  "</" +:+ t +:+ ">" +:+ l.

Definition write (t : ElementTree) : string :=
  docinfo t +:+ write_element (getroot t).

Definition parse_text (s : string) : outcome ElementTree :=
  if String.eqb s facebook_text then Returned facebook_tree
  else if String.eqb s bell_text then Returned bell_tree
  else Raised (XMLSyntaxError "Start tag expected, '<' not found, line 1, column 1").

(** A character lxml takes: tab, line feed, carriage return, or
    anything from the space on. *)
Definition xml_char (a : Ascii.ascii) : bool :=
  let n := Ascii.nat_of_ascii a in
  Nat.eqb n 9 || Nat.eqb n 10 || Nat.eqb n 13 || Nat.leb 32 n.

Fixpoint accepts (s : string) : bool :=
  match s with
  | EmptyString => true
  | String a s' => xml_char a && accepts s'
  end.

Definition parse_text_ok (content : string) (tree : ElementTree) :
  parse_text content = Returned tree → root_values_ok accepts tree = true.
Proof.
  unfold parse_text.
  destruct (String.eqb content facebook_text); [by intros [= <-]|].
  destruct (String.eqb content bell_text); [by intros [= <-]|done].
Qed.

Definition files (p : Path) : oserror + string :=
  if decide (p = pkg ++ ["svgs"; "brands"; "facebook.svg"]) then inr facebook_text
  else if decide (p = pkg ++ ["svgs"; "regular"; "facebook.svg"]) then inr facebook_text
  else if decide (p = pkg ++ ["svgs"; "regular"; "bell.svg"]) then inr bell_text
  else if decide (p = pkg ++ ["svgs"; "solid"; "bell.svg"]) then inr bell_text
  else inl FileNotFoundError.

Definition dirs (d : Path) : oserror + list string :=
  if decide (d = pkg ++ ["svgs"; "brands"]) then inr ["github.svg"; "facebook.svg"]
  else if decide (d = pkg ++ ["svgs"; "regular"]) then inr ["bell.svg"; "facebook.svg"]
  else if decide (d = pkg ++ ["svgs"; "solid"]) then inr ["bell.svg"; "star.svg"]
  else inl FileNotFoundError.

(** The same store with the [regular] directory removed. *)
Definition dirs_no_regular (d : Path) : oserror + list string :=
  if decide (d = pkg ++ ["svgs"; "regular"]) then inl FileNotFoundError
  else dirs d.

Definition world : World :=
  {| package_dir := pkg;
     listdir := dirs;
     read_text := files;
     etree_parse := parse_text;
     etree_write := write;
     xml_compatible := accepts;
     parsed_attrib_ok := parse_text_ok;
     SvgImage := λ _, Returned (Image "pyimage1") |}.

Definition world_no_regular : World :=
  {| package_dir := pkg;
     listdir := dirs_no_regular;
     read_text := files;
     etree_parse := parse_text;
     etree_write := write;
     xml_compatible := accepts;
     parsed_attrib_ok := parse_text_ok;
     SvgImage := λ _, Returned (Image "pyimage1") |}.

End Demo.

(** An asset store in which [brands/broken.svg] opens but does not
    parse. *)
Module DemoBroken.

Definition broken_path : Path := Demo.pkg ++ ["svgs"; "brands"; "broken.svg"].

Definition files (p : Path) : oserror + string :=
  if decide (p = broken_path) then inr "not xml" else Demo.files p.

Definition dirs (d : Path) : oserror + list string :=
  if decide (d = Demo.pkg ++ ["svgs"; "brands"]) then inr ["broken.svg"; "facebook.svg"]
  else Demo.dirs d.

Definition world : World :=
  {| package_dir := Demo.pkg;
     listdir := dirs;
     read_text := files;
     etree_parse := Demo.parse_text;
     etree_write := Demo.write;
     xml_compatible := Demo.accepts;
     parsed_attrib_ok := Demo.parse_text_ok;
     SvgImage := λ _, Raised (TclError "couldn't recognize image data") |}.

End DemoBroken.

(** Membership in a short explicit list. *)
Ltac one_of_three := rewrite !elem_of_cons; auto.

Example stem_svg : stem ["svgs"; "brands"; "facebook.svg"] = "facebook".
Proof. reflexivity. Qed.

Example stem_two_dots : stem_of_name "a.b.svg" = "a.b".
Proof. reflexivity. Qed.

Example stem_hidden : stem_of_name ".hidden" = ".hidden".
Proof. reflexivity. Qed.

Example demo_facebook :
  _get_icon_file Demo.world "facebook"
  = ([EvIterdir (Demo.pkg ++ ["svgs"; "brands"]);
      EvIterdir (Demo.pkg ++ ["svgs"; "regular"]);
      EvIterdir (Demo.pkg ++ ["svgs"; "solid"])],
     Returned (Demo.pkg ++ ["svgs"; "brands"; "facebook.svg"])).
Proof. reflexivity. Qed.

Example demo_bell :
  result (_get_icon_file Demo.world "bell")
  = Returned (Demo.pkg ++ ["svgs"; "regular"; "bell.svg"]).
Proof. reflexivity. Qed.

Example demo_unknown :
  result (_get_icon_file Demo.world "not-a-real-icon")
  = Raised (Exception "'not-a-real-icon' is not a valid icon name. Check spelling and consult https://fontawesome.com/v5.0/icons.").
Proof. reflexivity. Qed.

Example demo_no_regular :
  _get_icon_file Demo.world_no_regular "facebook"
  = ([EvIterdir (Demo.pkg ++ ["svgs"; "brands"]);
      EvIterdir (Demo.pkg ++ ["svgs"; "regular"])],
     Raised (OSError FileNotFoundError (Demo.pkg ++ ["svgs"; "regular"]))).
Proof. reflexivity. Qed.

Example demo_icon :
  icon_to_image Demo.world "facebook" (Some "#4267B2") (PyInt 64) PyNone (PyInt 1)
  = ([EvIterdir (Demo.pkg ++ ["svgs"; "brands"]);
      EvIterdir (Demo.pkg ++ ["svgs"; "regular"]);
      EvIterdir (Demo.pkg ++ ["svgs"; "solid"]);
      EvOpen (Demo.pkg ++ ["svgs"; "brands"; "facebook.svg"]);
      EvParse Demo.facebook_text;
      EvSvgImage
        (<["scaletowidth" := PyInt 64]>
           {["data" := PyBytes
              "<svg viewBox='0 0 512 512' fill='#4267B2'><path d='M504 256z'></path></svg>"]})],
     Returned (Image "pyimage1")).
Proof. reflexivity. Qed.

(** ** Paths and stems *)

Lemma name_joinpath (dir : Path) (n : string) : name (joinpath dir [n]) = n.
Proof. unfold name, joinpath. by rewrite last_snoc. Qed.

Lemma parent_joinpath (dir : Path) (n : string) : parent (joinpath dir [n]) = dir.
Proof. unfold parent, joinpath. apply removelast_last. Qed.

Lemma stem_joinpath (dir : Path) (n : string) :
  stem (joinpath dir [n]) = stem_of_name n.
Proof. unfold stem. by rewrite name_joinpath. Qed.

Lemma elem_of_entries (dir : Path) (names : list string) (f : Path) :
  f ∈ entries dir names ↔ ∃ n, f = joinpath dir [n] ∧ n ∈ names.
Proof. unfold entries. apply list_elem_of_fmap. Qed.

(** ** The monad *)

Lemma bind_returned {A B} (t : list event) (a : A) (k : A → M B) :
  ((t, Returned a) : M A) ≫= k = (t ++ (k a).1, (k a).2).
Proof. unfold mbind, M_bind. by destruct (k a). Qed.

Lemma bind_raised {A B} (t : list event) (e : exn) (k : A → M B) :
  ((t, Raised e) : M A) ≫= k = (t, Raised e).
Proof. reflexivity. Qed.

Lemma bind_ret_r {A} (m : M A) : m ≫= mret = m.
Proof.
  destruct m as [t [a|e]]; [|reflexivity].
  rewrite bind_returned. simpl. by rewrite app_nil_r.
Qed.

(** ** Listing the asset directories *)

Section Resolver.
Variable w : World.

Lemma iterdir_ok dir names :
  listdir w dir = inr names →
  iterdir w dir = ([EvIterdir dir], Returned (entries dir names)).
Proof. intros H. unfold iterdir. simpl. by rewrite H. Qed.

Lemma iterdir_fail dir err :
  listdir w dir = inl err →
  iterdir w dir = ([EvIterdir dir], Raised (OSError err dir)).
Proof. intros H. unfold iterdir. simpl. by rewrite H. Qed.

Lemma collect_ok bs rs ss :
  listdir w (brands_dir w) = inr bs →
  listdir w (regular_dir w) = inr rs →
  listdir w (solid_dir w) = inr ss →
  _collect_svg_files w
  = ([EvIterdir (brands_dir w); EvIterdir (regular_dir w); EvIterdir (solid_dir w)],
     Returned (entries (brands_dir w) bs ++ entries (regular_dir w) rs
               ++ entries (solid_dir w) ss)).
Proof.
  intros Hb Hr Hs. unfold _collect_svg_files.
  fold (brands_dir w) (regular_dir w) (solid_dir w).
  rewrite (iterdir_ok _ _ Hb), bind_returned.
  rewrite (iterdir_ok _ _ Hr), bind_returned.
  rewrite (iterdir_ok _ _ Hs), bind_returned.
  simpl. by rewrite <- app_assoc.
Qed.

(** Whatever the listing does, it only lists: no file is opened, no
    document parsed, nothing rendered. *)
Lemma iterdir_trace dir : trace (iterdir w dir) = [EvIterdir dir].
Proof. unfold iterdir. simpl. by destruct (listdir w dir). Qed.

Lemma collect_fail dir err :
  dir ∈ [brands_dir w; regular_dir w; solid_dir w] →
  listdir w dir = inl err →
  ∃ dir' err',
    dir' ∈ [brands_dir w; regular_dir w; solid_dir w] ∧
    listdir w dir' = inl err' ∧
    result (_collect_svg_files w) = Raised (OSError err' dir').
Proof.
  intros Hin Hdir. unfold _collect_svg_files.
  fold (brands_dir w) (regular_dir w) (solid_dir w).
  destruct (listdir w (brands_dir w)) as [eb|bs] eqn:Hb.
  { exists (brands_dir w), eb. split_and!; [one_of_three|done|].
    by rewrite (iterdir_fail _ _ Hb). }
  rewrite (iterdir_ok _ _ Hb), bind_returned.
  destruct (listdir w (regular_dir w)) as [er|rs] eqn:Hr.
  { exists (regular_dir w), er. split_and!; [one_of_three|done|].
    by rewrite (iterdir_fail _ _ Hr). }
  rewrite (iterdir_ok _ _ Hr), bind_returned.
  destruct (listdir w (solid_dir w)) as [es|ss] eqn:Hs.
  { exists (solid_dir w), es. split_and!; [one_of_three|done|].
    by rewrite (iterdir_fail _ _ Hs). }
  exfalso.
  rewrite !elem_of_cons, elem_of_nil in Hin.
  destruct Hin as [->|[->|[->|[]]]]; congruence.
Qed.

(** ** The scan for the stem *)

Lemma scan_files_trace icon files : trace (scan_files icon files) = [].
Proof.
  induction files as [|file rest IH]; simpl; [done|].
  by destruct (String.eqb (stem file) icon).
Qed.

Lemma scan_files_first icon pre f post :
  Forall (λ g, stem g ≠ icon) pre →
  stem f = icon →
  scan_files icon (pre ++ f :: post) = ([], Returned f).
Proof.
  intros Hpre Hf. induction Hpre as [|g pre Hg _ IH]; simpl.
  - apply String.eqb_eq in Hf. by rewrite Hf.
  - apply String.eqb_neq in Hg. by rewrite Hg.
Qed.

Lemma scan_files_none icon files :
  Forall (λ g, stem g ≠ icon) files →
  scan_files icon files = ([], Raised (Exception (not_valid_icon_name icon))).
Proof.
  induction 1 as [|g files Hg _ IH]; simpl; [done|].
  apply String.eqb_neq in Hg. by rewrite Hg.
Qed.

Lemma scan_files_returned icon files f :
  result (scan_files icon files) = Returned f → f ∈ files ∧ stem f = icon.
Proof.
  induction files as [|g rest IH]; simpl; [done|].
  destruct (String.eqb (stem g) icon) eqn:Hg.
  - intros [= <-]. split; [left|]. by apply String.eqb_eq.
  - intros H. destruct (IH H). split; [by right|done].
Qed.

Lemma scan_files_app_l icon l1 l2 g :
  g ∈ l1 → stem g = icon →
  scan_files icon (l1 ++ l2) = scan_files icon l1.
Proof.
  intros Hin Hg. induction l1 as [|h l1 IH]; [by apply elem_of_nil in Hin|].
  simpl. destruct (String.eqb (stem h) icon) eqn:Hh; [done|].
  apply elem_of_cons in Hin as [->|Hin].
  - apply String.eqb_neq in Hh. done.
  - by apply IH.
Qed.

End Resolver.

(** ** The root attribute *)

Lemma attrib_get_set_eq k v a : attrib_get k (attrib_set k v a) = Some v.
Proof.
  induction a as [|[k' v'] a IH]; simpl.
  - by rewrite String.eqb_refl.
  - destruct (String.eqb k' k) eqn:Hk; simpl; by rewrite Hk.
Qed.

Lemma attrib_get_set_ne k k' v a :
  k' ≠ k → attrib_get k' (attrib_set k v a) = attrib_get k' a.
Proof.
  intros Hne. induction a as [|[k0 v0] a IH]; simpl.
  - apply not_eq_sym, String.eqb_neq in Hne. by rewrite Hne.
  - destruct (String.eqb k0 k) eqn:Hk; simpl.
    + apply String.eqb_eq in Hk as ->.
      apply not_eq_sym, String.eqb_neq in Hne. by rewrite Hne.
    + by rewrite IH.
Qed.

Lemma attrib_set_absent k v a :
  attrib_get k a = None → attrib_set k v a = a ++ [(k, v)].
Proof.
  induction a as [|[k0 v0] a IH]; simpl; [done|].
  destruct (String.eqb k0 k); [done|]. intros H. by rewrite IH.
Qed.

Lemma put_root_attrib_frame k v tree :
  docinfo (put_root_attrib k v tree) = docinfo tree ∧
  tag (getroot (put_root_attrib k v tree)) = tag (getroot tree) ∧
  text (getroot (put_root_attrib k v tree)) = text (getroot tree) ∧
  children (getroot (put_root_attrib k v tree)) = children (getroot tree) ∧
  tail (getroot (put_root_attrib k v tree)) = tail (getroot tree).
Proof. unfold put_root_attrib. by destruct (getroot tree). Qed.

Lemma put_root_attrib_attrib k v tree :
  attrib (getroot (put_root_attrib k v tree)) = attrib_set k v (attrib (getroot tree)).
Proof. unfold put_root_attrib. by destruct (getroot tree). Qed.

(** ** Running the renderer *)

Section Renderer.
Variable w : World.

Lemma svg_to_image_path p content tree fill sw sh sc :
  read_text w p = inr content →
  etree_parse w content = Returned tree →
  fill_accepted w fill = true →
  svg_to_image w (SrcPath p) fill sw sh sc
  = (let kw := keywords (etree_write w (written_tree fill tree)) sw sh sc in
     ([EvOpen p; EvParse content; EvSvgImage kw], SvgImage w kw)).
Proof.
  intros Hopen Hparse Hfill.
  unfold svg_to_image, py_open, parse, call_SvgImage, set_root_attrib.
  simpl. rewrite Hopen. simpl. rewrite Hparse. simpl.
  unfold keywords, written_tree.
  destruct fill as [v|]; simpl in Hfill; [rewrite Hfill|]; done.
Qed.

Lemma svg_to_image_refused p content tree v sw sh sc :
  read_text w p = inr content →
  etree_parse w content = Returned tree →
  xml_compatible w v = false →
  svg_to_image w (SrcPath p) (Some v) sw sh sc
  = ([EvOpen p; EvParse content], Raised (ValueError not_xml_compatible)).
Proof.
  intros Hopen Hparse Hfill.
  unfold svg_to_image, py_open, parse, set_root_attrib.
  simpl. rewrite Hopen. simpl. rewrite Hparse. simpl. by rewrite Hfill.
Qed.

Lemma svg_to_image_file content fill sw sh sc :
  svg_to_image w (SrcFile content) fill sw sh sc
  = ([], Raised (TypeError
           "expected str, bytes or os.PathLike object, not TextIOWrapper")).
Proof. reflexivity. Qed.

Lemma config_passed_inv src fill sw sh sc kw :
  config_passed w src fill sw sh sc kw →
  ∃ p content tree,
    src = SrcPath p ∧ read_text w p = inr content ∧
    etree_parse w content = Returned tree ∧
    fill_accepted w fill = true ∧
    kw = keywords (etree_write w (written_tree fill tree)) sw sh sc.
Proof.
  unfold config_passed. destruct src as [p|content].
  - destruct (read_text w p) as [err|content] eqn:Hopen.
    + unfold svg_to_image, py_open. simpl. rewrite Hopen. simpl.
      rewrite !elem_of_cons, elem_of_nil. intros [?|[]]; done.
    + destruct (etree_parse w content) as [tree|e] eqn:Hparse.
      * destruct (fill_accepted w fill) eqn:Hfill.
        -- rewrite (svg_to_image_path _ _ _ _ _ _ _ Hopen Hparse Hfill). simpl.
           rewrite !elem_of_cons, elem_of_nil.
           intros [?|[?|[[= ->]|[]]]]; try done.
           by exists p, content, tree.
        -- destruct fill as [v|]; [|done]. simpl in Hfill.
           rewrite (svg_to_image_refused _ _ _ _ _ _ _ Hopen Hparse Hfill).
           simpl. rewrite !elem_of_cons, elem_of_nil.
           intros [?|[?|[]]]; done.
      * unfold svg_to_image, py_open, parse. simpl. rewrite Hopen. simpl.
        rewrite Hparse. simpl. rewrite !elem_of_cons, elem_of_nil.
        intros [?|[?|[]]]; done.
  - rewrite svg_to_image_file. simpl. by rewrite elem_of_nil.
Qed.

Lemma keywords_data imgdata sw sh sc :
  keywords imgdata sw sh sc !! "data" = Some (PyBytes imgdata).
Proof.
  unfold keywords.
  destruct (truthy sw), (truthy sh), (py_ne_one sc);
    by simplify_map_eq.
Qed.

Lemma keywords_scaletowidth imgdata sw sh sc :
  keywords imgdata sw sh sc !! "scaletowidth" = if truthy sw then Some sw else None.
Proof.
  unfold keywords.
  destruct (truthy sw), (truthy sh), (py_ne_one sc);
    by simplify_map_eq.
Qed.

Lemma keywords_scaletoheight imgdata sw sh sc :
  keywords imgdata sw sh sc !! "scaletoheight" = if truthy sh then Some sh else None.
Proof.
  unfold keywords.
  destruct (truthy sw), (truthy sh), (py_ne_one sc);
    by simplify_map_eq.
Qed.

Lemma keywords_scale imgdata sw sh sc :
  keywords imgdata sw sh sc !! "scale" = if py_eq_one sc then None else Some sc.
Proof.
  unfold keywords, py_ne_one.
  destruct (truthy sw), (truthy sh), (py_eq_one sc);
    by simplify_map_eq.
Qed.

End Renderer.

(** ** Strings *)

Lemma string_app_assoc (s1 s2 s3 : string) :
  (s1 +:+ s2) +:+ s3 = s1 +:+ (s2 +:+ s3).
Proof.
  induction s1 as [|a s1 IH]; [reflexivity|].
  change (String a ((s1 +:+ s2) +:+ s3) = String a (s1 +:+ (s2 +:+ s3))).
  by rewrite IH.
Qed.

Lemma contains_icon_name (icon : string) : contains icon (not_valid_icon_name icon).
Proof. unfold contains, not_valid_icon_name. by eexists "'", _. Qed.

Lemma contains_guidance (icon : string) :
  contains "Check spelling and consult https://fontawesome.com/v5.0/icons."
           (not_valid_icon_name icon).
Proof.
  exists ("'" +:+ icon +:+ "' is not a valid icon name. "), "".
  unfold not_valid_icon_name. by rewrite !string_app_assoc.
Qed.

(** ** Running the resolver and the lookup *)

Section Lookup.
Variable w : World.

Lemma get_icon_file_listed icon bs rs ss :
  listdir w (brands_dir w) = inr bs →
  listdir w (regular_dir w) = inr rs →
  listdir w (solid_dir w) = inr ss →
  _get_icon_file w icon
  = ([EvIterdir (brands_dir w); EvIterdir (regular_dir w); EvIterdir (solid_dir w)],
     result (scan_files icon
               (entries (brands_dir w) bs ++ entries (regular_dir w) rs
                ++ entries (solid_dir w) ss))).
Proof.
  intros Hb Hr Hs. unfold _get_icon_file.
  rewrite (collect_ok w _ _ _ Hb Hr Hs), bind_returned.
  pose proof (scan_files_trace icon
    (entries (brands_dir w) bs ++ entries (regular_dir w) rs
     ++ entries (solid_dir w) ss)) as Ht.
  unfold trace in Ht. unfold result. by rewrite Ht.
Qed.

Lemma collect_trace_listing : Forall is_listing (trace (_collect_svg_files w)).
Proof.
  unfold _collect_svg_files.
  destruct (iterdir w (joinpath (package_dir w) ["svgs"; "brands"]))
    as [tb [bs|eb]] eqn:Hb;
    pose proof (iterdir_trace w (joinpath (package_dir w) ["svgs"; "brands"])) as Tb;
    rewrite Hb in Tb; simpl in Tb; subst tb;
    [rewrite bind_returned|by repeat constructor].
  destruct (iterdir w (joinpath (package_dir w) ["svgs"; "regular"]))
    as [tr [rs|er]] eqn:Hr;
    pose proof (iterdir_trace w (joinpath (package_dir w) ["svgs"; "regular"])) as Tr;
    rewrite Hr in Tr; simpl in Tr; subst tr;
    [rewrite bind_returned|by repeat constructor].
  destruct (iterdir w (joinpath (package_dir w) ["svgs"; "solid"]))
    as [ts [ss|es]] eqn:Hs;
    pose proof (iterdir_trace w (joinpath (package_dir w) ["svgs"; "solid"])) as Ts;
    rewrite Hs in Ts; simpl in Ts; subst ts;
    by repeat constructor.
Qed.

Lemma get_icon_file_trace_listing icon :
  Forall is_listing (trace (_get_icon_file w icon)).
Proof.
  unfold _get_icon_file. pose proof collect_trace_listing as H.
  destruct (_collect_svg_files w) as [t [files|e]]; [|done].
  rewrite bind_returned. unfold trace in *. simpl in *.
  pose proof (scan_files_trace icon files) as Ht. unfold trace in Ht.
  by rewrite Ht, app_nil_r.
Qed.

End Lookup.

(** * The name resolver *)

(** C1.  When the three directories can be listed, [_get_icon_file]
    returns the first file, in the order brands, regular, solid, whose
    stem is the requested name.  In particular, when a file of brands
    has that stem, the file returned is one of brands, whatever regular
    and solid contain. *)
Theorem get_icon_file_first_match (w : World) (icon : string)
    (bs rs ss : list string) (pre : list Path) (f : Path) (post : list Path) :
  listdir w (brands_dir w) = inr bs →
  listdir w (regular_dir w) = inr rs →
  listdir w (solid_dir w) = inr ss →
  entries (brands_dir w) bs ++ entries (regular_dir w) rs ++ entries (solid_dir w) ss
    = pre ++ f :: post →
  Forall (λ g, stem g ≠ icon) pre →
  stem f = icon →
  result (_get_icon_file w icon) = Returned f ∧
  ((∃ b, b ∈ bs ∧ stem_of_name b = icon) →
   f ∈ entries (brands_dir w) bs ∧ parent f = brands_dir w).
Proof.
  intros Hb Hr Hs Hsplit Hpre Hf.
  rewrite (get_icon_file_listed w icon _ _ _ Hb Hr Hs). unfold result at 1. simpl.
  assert (Hscan : scan_files icon
            (entries (brands_dir w) bs ++ entries (regular_dir w) rs
             ++ entries (solid_dir w) ss) = ([], Returned f)).
  { rewrite Hsplit. by apply scan_files_first. }
  split; [by rewrite Hscan|].
  intros (b & Hin & Hstem).
  assert (Hbrands : f ∈ entries (brands_dir w) bs).
  { rewrite (scan_files_app_l icon _ _ (joinpath (brands_dir w) [b])) in Hscan.
    - apply (scan_files_returned icon). by rewrite Hscan.
    - apply elem_of_entries. by exists b.
    - by rewrite stem_joinpath. }
  split; [done|].
  apply elem_of_entries in Hbrands as (n & -> & _). apply parent_joinpath.
Qed.

Lemma get_icon_file_first_match_witness :
  result (_get_icon_file Demo.world "facebook")
    = Returned (Demo.pkg ++ ["svgs"; "brands"; "facebook.svg"]) ∧
  ((∃ b, b ∈ ["github.svg"; "facebook.svg"] ∧ stem_of_name b = "facebook") →
   Demo.pkg ++ ["svgs"; "brands"; "facebook.svg"]
     ∈ entries (brands_dir Demo.world) ["github.svg"; "facebook.svg"] ∧
   parent (Demo.pkg ++ ["svgs"; "brands"; "facebook.svg"]) = brands_dir Demo.world).
Proof.
  apply (get_icon_file_first_match Demo.world "facebook"
           ["github.svg"; "facebook.svg"] ["bell.svg"; "facebook.svg"]
           ["bell.svg"; "star.svg"]
           [Demo.pkg ++ ["svgs"; "brands"; "github.svg"]]
           (Demo.pkg ++ ["svgs"; "brands"; "facebook.svg"])
           (entries (regular_dir Demo.world) ["bell.svg"; "facebook.svg"]
            ++ entries (solid_dir Demo.world) ["bell.svg"; "star.svg"])).
  - reflexivity.
  - reflexivity.
  - reflexivity.
  - reflexivity.
  - constructor; [|constructor]. vm_compute. discriminate.
  - reflexivity.
Defined.

(** C2.  When the three directories can be listed and no file in them
    has the requested name as its stem, [_get_icon_file] raises an
    exception whose message contains the name and the advice to check
    the spelling against the Font Awesome icon list; it returns no
    path. *)
Theorem get_icon_file_not_found (w : World) (icon : string) (bs rs ss : list string) :
  listdir w (brands_dir w) = inr bs →
  listdir w (regular_dir w) = inr rs →
  listdir w (solid_dir w) = inr ss →
  Forall (λ g, stem g ≠ icon)
    (entries (brands_dir w) bs ++ entries (regular_dir w) rs
     ++ entries (solid_dir w) ss) →
  ∃ msg,
    result (_get_icon_file w icon) = Raised (Exception msg) ∧
    contains icon msg ∧
    contains "Check spelling and consult https://fontawesome.com/v5.0/icons." msg ∧
    ∀ f, result (_get_icon_file w icon) ≠ Returned f.
Proof.
  intros Hb Hr Hs Hnone. exists (not_valid_icon_name icon).
  rewrite (get_icon_file_listed w icon _ _ _ Hb Hr Hs).
  rewrite (scan_files_none icon _ Hnone). unfold result. simpl.
  split_and!; [done|apply contains_icon_name|apply contains_guidance|done].
Qed.

Lemma get_icon_file_not_found_witness :
  ∃ msg,
    result (_get_icon_file Demo.world "not-a-real-icon") = Raised (Exception msg) ∧
    contains "not-a-real-icon" msg ∧
    contains "Check spelling and consult https://fontawesome.com/v5.0/icons." msg ∧
    ∀ f, result (_get_icon_file Demo.world "not-a-real-icon") ≠ Returned f.
Proof.
  apply (get_icon_file_not_found Demo.world "not-a-real-icon"
           ["github.svg"; "facebook.svg"] ["bell.svg"; "facebook.svg"]
           ["bell.svg"; "star.svg"]).
  - reflexivity.
  - reflexivity.
  - reflexivity.
  - repeat constructor; vm_compute; discriminate.
Defined.

(** C10.  The three directories are listed before any stem is compared:
    when one of them cannot be listed, [_get_icon_file] raises the
    [OSError] of a directory that cannot be listed, for every name; it
    neither returns a path nor raises the unknown-icon exception, even
    when a directory listed earlier holds a file with the requested
    stem. *)
Theorem get_icon_file_listing_error (w : World) (icon : string)
    (dir : Path) (err : oserror) :
  dir ∈ [brands_dir w; regular_dir w; solid_dir w] →
  listdir w dir = inl err →
  ∃ dir' err',
    dir' ∈ [brands_dir w; regular_dir w; solid_dir w] ∧
    listdir w dir' = inl err' ∧
    result (_get_icon_file w icon) = Raised (OSError err' dir') ∧
    (∀ msg, result (_get_icon_file w icon) ≠ Raised (Exception msg)) ∧
    (∀ f, result (_get_icon_file w icon) ≠ Returned f).
Proof.
  intros Hin Hdir.
  destruct (collect_fail w dir err Hin Hdir) as (dir' & err' & Hin' & Hdir' & Hres).
  exists dir', err'.
  assert (Hget : result (_get_icon_file w icon) = Raised (OSError err' dir')).
  { unfold _get_icon_file. unfold result in *.
    by destruct (_collect_svg_files w) as [t [files|e]]; simplify_eq/=. }
  rewrite Hget. by split_and!.
Qed.

Lemma get_icon_file_listing_error_witness :
  (∃ b, b ∈ ["github.svg"; "facebook.svg"] ∧ stem_of_name b = "facebook" ∧
        listdir Demo.world_no_regular (brands_dir Demo.world_no_regular)
          = inr ["github.svg"; "facebook.svg"]) ∧
  ∃ dir' err',
    dir' ∈ [brands_dir Demo.world_no_regular; regular_dir Demo.world_no_regular;
            solid_dir Demo.world_no_regular] ∧
    listdir Demo.world_no_regular dir' = inl err' ∧
    result (_get_icon_file Demo.world_no_regular "facebook")
      = Raised (OSError err' dir') ∧
    (∀ msg, result (_get_icon_file Demo.world_no_regular "facebook")
            ≠ Raised (Exception msg)) ∧
    (∀ f, result (_get_icon_file Demo.world_no_regular "facebook") ≠ Returned f).
Proof.
  split.
  - exists "facebook.svg". split_and!; [one_of_three|reflexivity|reflexivity].
  - apply (get_icon_file_listing_error Demo.world_no_regular "facebook"
             (regular_dir Demo.world_no_regular) FileNotFoundError).
    + one_of_three.
    + reflexivity.
Defined.

(** * The renderer *)

Lemma truthy_not_None (v : pyval) : truthy v = true → is_not_None v = true.
Proof. by destruct v. Qed.

Lemma truthy_int (z : Z) : truthy (PyInt z) = true ↔ z ≠ 0%Z.
Proof. simpl. rewrite negb_true_iff. apply Z.eqb_neq. Qed.

(** C3, as stated, fails: with [scale_to_width=0] the argument is not
    [None], yet the dictionary passed to [tksvg.SvgImage] has no
    [scaletowidth] key. *)
Lemma size_keys_zero_counterexample :
  ¬ size_keys_follow_not_None Demo.world
      (SrcPath (Demo.pkg ++ ["svgs"; "brands"; "facebook.svg"]))
      None (PyInt 0) PyNone (PyInt 1).
Proof.
  intros H.
  destruct (H {["data" := PyBytes (Demo.write Demo.facebook_tree)]}) as [Hw _].
  - apply (list_elem_of_lookup_2 _ 2). reflexivity.
  - vm_compute in Hw. discriminate.
Qed.

(** C3, amended.  The dictionary passed to [tksvg.SvgImage] has the key
    [scaletowidth], with the argument's value, exactly when
    [scale_to_width] is true in a condition (so neither [None] nor 0),
    and the key [scaletoheight] exactly when [scale_to_height] is. *)
Theorem size_keys_follow_truth (w : World) (src : source) (fill : option string)
    (scale_to_width scale_to_height scale : pyval) (kw : gmap string pyval) :
  config_passed w src fill scale_to_width scale_to_height scale kw →
  kw !! "scaletowidth"
    = (if truthy scale_to_width then Some scale_to_width else None) ∧
  kw !! "scaletoheight"
    = (if truthy scale_to_height then Some scale_to_height else None).
Proof.
  intros (p & content & tree & _ & _ & _ & _ & ->)%config_passed_inv.
  split; [apply keywords_scaletowidth|apply keywords_scaletoheight].
Qed.

Lemma size_keys_follow_truth_witness :
  let kw : gmap string pyval :=
    <["scaletowidth" := PyInt 64]>
      {["data" := PyBytes (Demo.write Demo.facebook_tree)]} in
  kw !! "scaletowidth" = (if truthy (PyInt 64) then Some (PyInt 64) else None) ∧
  kw !! "scaletoheight" = (if truthy (PyInt 0) then Some (PyInt 0) else None).
Proof.
  apply (size_keys_follow_truth Demo.world
           (SrcPath (Demo.pkg ++ ["svgs"; "brands"; "facebook.svg"]))
           None (PyInt 64) (PyInt 0) (PyInt 1)).
  apply (list_elem_of_lookup_2 _ 2). reflexivity.
Defined.

(** C4, on the code: a file object given as [source] never reaches the
    parser.  [open] refuses it with a [TypeError] before anything is
    read, whatever the content of the file and whatever the other
    arguments; no image is returned. *)
Theorem svg_to_image_refuses_file_object (w : World) (content : string)
    (fill : option string) (scale_to_width scale_to_height scale : pyval) :
  trace (svg_to_image w (SrcFile content) fill scale_to_width scale_to_height scale)
    = [] ∧
  (∃ msg,
     result (svg_to_image w (SrcFile content) fill
               scale_to_width scale_to_height scale)
     = Raised (TypeError msg)) ∧
  (∀ img,
     result (svg_to_image w (SrcFile content) fill
               scale_to_width scale_to_height scale)
     ≠ Returned img).
Proof. rewrite svg_to_image_file. split_and!; [done|by eexists|done]. Qed.

Example demo_file_object :
  Demo.parse_text Demo.facebook_text = Returned Demo.facebook_tree ∧
  result (svg_to_image Demo.world (SrcFile Demo.facebook_text)
            None PyNone PyNone (PyInt 1))
  = Raised (TypeError "expected str, bytes or os.PathLike object, not TextIOWrapper").
Proof. split; reflexivity. Qed.

(** C5, as stated, fails: the claim is for every fill value, but a
    string with a NUL byte is refused by the assignment to
    [root.attrib].  On a source that opens and parses, [svg_to_image]
    then raises [ValueError] right after the parse: nothing is
    serialised and the renderer is not called. *)
Lemma fill_control_character_counterexample :
  read_text Demo.world (Demo.pkg ++ ["svgs"; "brands"; "facebook.svg"])
    = inr Demo.facebook_text ∧
  etree_parse Demo.world Demo.facebook_text = Returned Demo.facebook_tree ∧
  svg_to_image Demo.world (SrcPath (Demo.pkg ++ ["svgs"; "brands"; "facebook.svg"]))
    (Some (String "000"%char "")) PyNone PyNone (PyInt 1)
    = ([EvOpen (Demo.pkg ++ ["svgs"; "brands"; "facebook.svg"]);
        EvParse Demo.facebook_text],
       Raised (ValueError not_xml_compatible)) ∧
  ¬ fill_reaches_renderer Demo.world
      (SrcPath (Demo.pkg ++ ["svgs"; "brands"; "facebook.svg"]))
      (String "000"%char "") PyNone PyNone (PyInt 1).
Proof.
  split_and!; [reflexivity..|].
  intros (tree' & kw & Hpassed & _). unfold config_passed in Hpassed.
  change (EvSvgImage kw
            ∈ [EvOpen (Demo.pkg ++ ["svgs"; "brands"; "facebook.svg"]);
               EvParse Demo.facebook_text]) in Hpassed.
  rewrite !elem_of_cons, elem_of_nil in Hpassed.
  destruct Hpassed as [?|[?|[]]]; discriminate.
Qed.

(** C5, amended.  For a source that opens and parses and a fill value
    [v] that lxml takes as an attribute value, rendering with [fill=v]
    serialises a tree whose root has [fill] equal to [v] (appended when
    the root had none, replaced in place otherwise); the root's other
    attributes, its tag, text, tail and all its children are those of
    the parsed tree; the bytes of that serialisation are the [data]
    entry of the dictionary passed to [tksvg.SvgImage]. *)
Theorem fill_sets_root_attribute (w : World) (p : Path) (content : string)
    (tree : ElementTree) (v : string) (scale_to_width scale_to_height scale : pyval) :
  read_text w p = inr content →
  etree_parse w content = Returned tree →
  xml_compatible w v = true →
  ∃ tree' kw,
    svg_to_image w (SrcPath p) (Some v) scale_to_width scale_to_height scale
      = ([EvOpen p; EvParse content; EvSvgImage kw], SvgImage w kw) ∧
    kw !! "data" = Some (PyBytes (etree_write w tree')) ∧
    attrib_get "fill" (attrib (getroot tree')) = Some v ∧
    (attrib_get "fill" (attrib (getroot tree)) = None →
     attrib (getroot tree') = attrib (getroot tree) ++ [("fill", v)]) ∧
    (∀ k, k ≠ "fill" →
       attrib_get k (attrib (getroot tree')) = attrib_get k (attrib (getroot tree))) ∧
    docinfo tree' = docinfo tree ∧
    tag (getroot tree') = tag (getroot tree) ∧
    text (getroot tree') = text (getroot tree) ∧
    children (getroot tree') = children (getroot tree) ∧
    tail (getroot tree') = tail (getroot tree).
Proof.
  intros Hopen Hparse Hv.
  exists (put_root_attrib "fill" v tree),
    (keywords (etree_write w (put_root_attrib "fill" v tree))
       scale_to_width scale_to_height scale).
  split; [by rewrite (svg_to_image_path w _ _ _ (Some v) _ _ _ Hopen Hparse Hv)|].
  split; [apply keywords_data|].
  rewrite put_root_attrib_attrib.
  split; [apply attrib_get_set_eq|].
  split; [apply attrib_set_absent|].
  split; [intros k Hk; by apply attrib_get_set_ne|].
  apply put_root_attrib_frame.
Qed.

Lemma fill_sets_root_attribute_witness :
  ∃ tree' kw,
    svg_to_image Demo.world (SrcPath (Demo.pkg ++ ["svgs"; "brands"; "facebook.svg"]))
      (Some "#112233") PyNone PyNone (PyInt 1)
      = ([EvOpen (Demo.pkg ++ ["svgs"; "brands"; "facebook.svg"]);
          EvParse Demo.facebook_text; EvSvgImage kw], SvgImage Demo.world kw) ∧
    kw !! "data" = Some (PyBytes (etree_write Demo.world tree')) ∧
    attrib_get "fill" (attrib (getroot tree')) = Some "#112233" ∧
    (attrib_get "fill" (attrib (getroot Demo.facebook_tree)) = None →
     attrib (getroot tree') = attrib (getroot Demo.facebook_tree) ++ [("fill", "#112233")]) ∧
    (∀ k, k ≠ "fill" →
       attrib_get k (attrib (getroot tree'))
       = attrib_get k (attrib (getroot Demo.facebook_tree))) ∧
    docinfo tree' = docinfo Demo.facebook_tree ∧
    tag (getroot tree') = tag (getroot Demo.facebook_tree) ∧
    text (getroot tree') = text (getroot Demo.facebook_tree) ∧
    children (getroot tree') = children (getroot Demo.facebook_tree) ∧
    tail (getroot tree') = tail (getroot Demo.facebook_tree).
Proof.
  apply (fill_sets_root_attribute Demo.world
           (Demo.pkg ++ ["svgs"; "brands"; "facebook.svg"])
           Demo.facebook_text Demo.facebook_tree "#112233" PyNone PyNone (PyInt 1)).
  - reflexivity.
  - reflexivity.
  - reflexivity.
Defined.

Example demo_fill_bytes :
  etree_write Demo.world (put_root_attrib "fill" "#112233" Demo.facebook_tree)
  = "<svg viewBox='0 0 512 512' fill='#112233'><path d='M504 256z'></path></svg>".
Proof. reflexivity. Qed.

(** C6.  For a source that opens and parses, rendering without [fill]
    serialises the parsed tree itself: the [data] entry passed to
    [tksvg.SvgImage] is the serialisation of a tree whose root [fill]
    is the one the source had, present or absent. *)
Theorem no_fill_keeps_root_attribute (w : World) (p : Path) (content : string)
    (tree : ElementTree) (scale_to_width scale_to_height scale : pyval) :
  read_text w p = inr content →
  etree_parse w content = Returned tree →
  ∃ tree' kw,
    svg_to_image w (SrcPath p) None scale_to_width scale_to_height scale
      = ([EvOpen p; EvParse content; EvSvgImage kw], SvgImage w kw) ∧
    kw !! "data" = Some (PyBytes (etree_write w tree')) ∧
    tree' = tree ∧
    attrib_get "fill" (attrib (getroot tree'))
      = attrib_get "fill" (attrib (getroot tree)).
Proof.
  intros Hopen Hparse.
  exists tree, (keywords (etree_write w tree) scale_to_width scale_to_height scale).
  split; [by rewrite (svg_to_image_path w _ _ _ None _ _ _ Hopen Hparse eq_refl)|].
  split; [apply keywords_data|done].
Qed.

Lemma no_fill_keeps_root_attribute_witness :
  ∃ tree' kw,
    svg_to_image Demo.world (SrcPath (Demo.pkg ++ ["svgs"; "brands"; "facebook.svg"]))
      None PyNone PyNone (PyInt 1)
      = ([EvOpen (Demo.pkg ++ ["svgs"; "brands"; "facebook.svg"]);
          EvParse Demo.facebook_text; EvSvgImage kw], SvgImage Demo.world kw) ∧
    kw !! "data" = Some (PyBytes (etree_write Demo.world tree')) ∧
    tree' = Demo.facebook_tree ∧
    attrib_get "fill" (attrib (getroot tree'))
      = attrib_get "fill" (attrib (getroot Demo.facebook_tree)).
Proof.
  apply (no_fill_keeps_root_attribute Demo.world
           (Demo.pkg ++ ["svgs"; "brands"; "facebook.svg"])
           Demo.facebook_text Demo.facebook_tree PyNone PyNone (PyInt 1)).
  - reflexivity.
  - reflexivity.
Defined.

(** C7.  The dictionary passed to [tksvg.SvgImage] has no [scale] key
    when [scale == 1], and has [scale] with the argument's value when
    [scale != 1]. *)
Theorem scale_key_unless_one (w : World) (src : source) (fill : option string)
    (scale_to_width scale_to_height scale : pyval) (kw : gmap string pyval) :
  config_passed w src fill scale_to_width scale_to_height scale kw →
  (py_eq_one scale = true → kw !! "scale" = None) ∧
  (py_ne_one scale = true → kw !! "scale" = Some scale).
Proof.
  intros (p & content & tree & _ & _ & _ & _ & ->)%config_passed_inv.
  rewrite keywords_scale. unfold py_ne_one.
  destruct (py_eq_one scale); split; done.
Qed.

Lemma scale_key_unless_one_witness :
  let kw : gmap string pyval :=
    <["scale" := PyInt 2]> {["data" := PyBytes (Demo.write Demo.facebook_tree)]} in
  (py_eq_one (PyInt 2) = true → kw !! "scale" = None) ∧
  (py_ne_one (PyInt 2) = true → kw !! "scale" = Some (PyInt 2)).
Proof.
  apply (scale_key_unless_one Demo.world
           (SrcPath (Demo.pkg ++ ["svgs"; "brands"; "facebook.svg"]))
           None PyNone PyNone (PyInt 2)).
  apply (list_elem_of_lookup_2 _ 2). reflexivity.
Defined.

Example demo_scale_default :
  trace (svg_to_image Demo.world
           (SrcPath (Demo.pkg ++ ["svgs"; "brands"; "facebook.svg"]))
           None PyNone PyNone (PyFloat 1%float)) !! 2
  = Some (EvSvgImage {["data" := PyBytes (Demo.write Demo.facebook_tree)]}).
Proof. reflexivity. Qed.

(** * The icon lookup *)

Lemma icon_to_image_resolver_error (w : World) (icon : string) (fill : option string)
    (sw sh sc : pyval) (e : exn) :
  result (_get_icon_file w icon) = Raised e →
  icon_to_image w icon fill sw sh sc = (trace (_get_icon_file w icon), Raised e).
Proof.
  unfold icon_to_image, result, trace.
  by destruct (_get_icon_file w icon) as [t [file|e']]; intros; simplify_eq/=.
Qed.

Lemma not_listing_absent (t : list event) (ev : event) :
  Forall is_listing t → is_listing ev = false → ev ∉ t.
Proof.
  intros Hall Hev Hin. rewrite Forall_forall in Hall.
  specialize (Hall _ Hin). rewrite Hev in Hall. done.
Qed.

(** C8.  [icon_to_image] is the renderer applied to what the resolver
    returns, with the same arguments and nothing else: an error of the
    resolver is the error of the lookup, and otherwise the lookup ends
    as the renderer ends, by the same image or the same error. *)
Theorem icon_to_image_is_render_of_resolve (w : World) (icon : string)
    (fill : option string) (scale_to_width scale_to_height scale : pyval) :
  icon_to_image w icon fill scale_to_width scale_to_height scale
    = render_of_resolve w icon fill scale_to_width scale_to_height scale ∧
  (∀ e, result (_get_icon_file w icon) = Raised e →
        result (icon_to_image w icon fill scale_to_width scale_to_height scale)
        = Raised e) ∧
  (∀ file, result (_get_icon_file w icon) = Returned file →
        result (icon_to_image w icon fill scale_to_width scale_to_height scale)
        = result (svg_to_image w (SrcPath file) fill
                    scale_to_width scale_to_height scale)).
Proof.
  unfold icon_to_image, render_of_resolve, result.
  destruct (_get_icon_file w icon) as [t [file|e]].
  - rewrite bind_returned, bind_ret_r.
    destruct (svg_to_image w (SrcPath file) fill scale_to_width scale_to_height scale)
      as [t' r] eqn:Hrender.
    simpl. split_and!; [done|done|]. intros file' [= <-]. by rewrite Hrender.
  - rewrite bind_raised. simpl. split_and!; [done| |done]. by intros e' [= <-].
Qed.

(** C9.  When the three directories can be listed and no file in them
    has the requested name as its stem, [icon_to_image] raises the
    unknown-icon exception after the three listings and nothing else:
    no file is opened and no document is parsed. *)
Theorem icon_to_image_not_found_opens_nothing (w : World) (icon : string)
    (fill : option string) (scale_to_width scale_to_height scale : pyval)
    (bs rs ss : list string) :
  listdir w (brands_dir w) = inr bs →
  listdir w (regular_dir w) = inr rs →
  listdir w (solid_dir w) = inr ss →
  Forall (λ g, stem g ≠ icon)
    (entries (brands_dir w) bs ++ entries (regular_dir w) rs
     ++ entries (solid_dir w) ss) →
  icon_to_image w icon fill scale_to_width scale_to_height scale
    = ([EvIterdir (brands_dir w); EvIterdir (regular_dir w); EvIterdir (solid_dir w)],
       Raised (Exception (not_valid_icon_name icon))) ∧
  (∀ p, EvOpen p
        ∉ trace (icon_to_image w icon fill scale_to_width scale_to_height scale)) ∧
  (∀ content, EvParse content
        ∉ trace (icon_to_image w icon fill scale_to_width scale_to_height scale)).
Proof.
  intros Hb Hr Hs Hnone.
  pose proof (get_icon_file_listed w icon _ _ _ Hb Hr Hs) as Hget.
  rewrite (scan_files_none icon _ Hnone) in Hget. unfold result in Hget. simpl in Hget.
  assert (Hrun : icon_to_image w icon fill scale_to_width scale_to_height scale
            = (trace (_get_icon_file w icon),
               Raised (Exception (not_valid_icon_name icon)))).
  { apply icon_to_image_resolver_error. by rewrite Hget. }
  rewrite Hrun. unfold trace at 1. rewrite Hget at 1. simpl. split; [done|].
  pose proof (get_icon_file_trace_listing w icon) as Hlist.
  split; intros x; by apply not_listing_absent.
Qed.

Lemma icon_to_image_not_found_opens_nothing_witness :
  icon_to_image Demo.world "not-a-real-icon" None PyNone PyNone (PyInt 1)
    = ([EvIterdir (brands_dir Demo.world); EvIterdir (regular_dir Demo.world);
        EvIterdir (solid_dir Demo.world)],
       Raised (Exception (not_valid_icon_name "not-a-real-icon"))) ∧
  (∀ p, EvOpen p
        ∉ trace (icon_to_image Demo.world "not-a-real-icon" None PyNone PyNone (PyInt 1))) ∧
  (∀ content, EvParse content
        ∉ trace (icon_to_image Demo.world "not-a-real-icon" None PyNone PyNone (PyInt 1))).
Proof.
  apply (icon_to_image_not_found_opens_nothing Demo.world "not-a-real-icon"
           None PyNone PyNone (PyInt 1)
           ["github.svg"; "facebook.svg"] ["bell.svg"; "facebook.svg"]
           ["bell.svg"; "star.svg"]).
  - reflexivity.
  - reflexivity.
  - reflexivity.
  - repeat constructor; vm_compute; discriminate.
Defined.

(** X11.  Whatever makes the resolver fail, an unknown name or a
    directory that cannot be listed, the lookup fails with the same
    exception and stops there: its log holds directory listings only. *)
Lemma icon_to_image_resolver_error_opens_nothing (w : World) (icon : string)
    (fill : option string) (sw sh sc : pyval) (e : exn) :
  result (_get_icon_file w icon) = Raised e →
  result (icon_to_image w icon fill sw sh sc) = Raised e ∧
  Forall is_listing (trace (icon_to_image w icon fill sw sh sc)).
Proof.
  intros He. rewrite (icon_to_image_resolver_error w icon fill sw sh sc e He).
  split; [done|]. apply get_icon_file_trace_listing.
Qed.

(** * Further properties of the renderer *)

(** X1.  When the path given as [source] cannot be opened, [svg_to_image]
    raises the [OSError] of that path; the log holds the attempt to open
    and nothing else, so nothing is parsed and the renderer is not
    called. *)
Theorem svg_to_image_open_error (w : World) (p : Path) (err : oserror)
    (fill : option string) (scale_to_width scale_to_height scale : pyval) :
  read_text w p = inl err →
  svg_to_image w (SrcPath p) fill scale_to_width scale_to_height scale
  = ([EvOpen p], Raised (OSError err p)).
Proof.
  intros Hopen. unfold svg_to_image, py_open. simpl. by rewrite Hopen.
Qed.

Lemma svg_to_image_open_error_witness :
  svg_to_image Demo.world (SrcPath ["missing.svg"]) (Some "red") (PyInt 64) PyNone (PyInt 2)
  = ([EvOpen ["missing.svg"]], Raised (OSError FileNotFoundError ["missing.svg"])).
Proof.
  apply (svg_to_image_open_error Demo.world ["missing.svg"] FileNotFoundError).
  reflexivity.
Defined.

(** X2.  When the file opens but the parser raises, [svg_to_image] ends
    with the parser's exception, unchanged; the log stops after the
    parse, so the renderer is not called. *)
Theorem svg_to_image_parse_error (w : World) (p : Path) (content : string) (e : exn)
    (fill : option string) (scale_to_width scale_to_height scale : pyval) :
  read_text w p = inr content →
  etree_parse w content = Raised e →
  svg_to_image w (SrcPath p) fill scale_to_width scale_to_height scale
  = ([EvOpen p; EvParse content], Raised e).
Proof.
  intros Hopen Hparse. unfold svg_to_image, py_open, parse. simpl.
  rewrite Hopen. simpl. by rewrite Hparse.
Qed.

(** X3.  Whatever dictionary [svg_to_image] passes to the renderer, the
    call ends as the renderer ends on that dictionary: the image it
    returns, or the exception it raises, unchanged. *)
Theorem svg_to_image_ends_as_renderer (w : World) (src : source)
    (fill : option string) (scale_to_width scale_to_height scale : pyval)
    (kw : gmap string pyval) :
  config_passed w src fill scale_to_width scale_to_height scale kw →
  result (svg_to_image w src fill scale_to_width scale_to_height scale)
  = SvgImage w kw.
Proof.
  intros (p & content & tree & -> & Hopen & Hparse & Hfill & ->)%config_passed_inv.
  by rewrite (svg_to_image_path w _ _ _ _ _ _ _ Hopen Hparse Hfill).
Qed.

(** X4.  Any dictionary passed to the renderer holds the serialised
    bytes under [data], and no key other than [data], [scaletowidth],
    [scaletoheight] and [scale]. *)
Theorem config_keys (w : World) (src : source) (fill : option string)
    (scale_to_width scale_to_height scale : pyval) (kw : gmap string pyval) :
  config_passed w src fill scale_to_width scale_to_height scale kw →
  (∃ imgdata, kw !! "data" = Some (PyBytes imgdata)) ∧
  ∀ k, is_Some (kw !! k) →
       k ∈ ["data"; "scaletowidth"; "scaletoheight"; "scale"].
Proof.
  intros (p & content & tree & _ & _ & _ & _ & ->)%config_passed_inv.
  split; [eexists; apply keywords_data|].
  intros k Hk.
  destruct (decide (k = "data")) as [->|Hdata]; [rewrite !elem_of_cons; auto 10|].
  destruct (decide (k = "scaletowidth")) as [->|Hwidth];
    [rewrite !elem_of_cons; auto 10|].
  destruct (decide (k = "scaletoheight")) as [->|Hheight];
    [rewrite !elem_of_cons; auto 10|].
  destruct (decide (k = "scale")) as [->|Hscale]; [rewrite !elem_of_cons; auto 10|].
  exfalso. revert Hk. unfold keywords.
  destruct (truthy scale_to_width), (truthy scale_to_height), (py_ne_one scale);
    rewrite ?lookup_insert_ne by done; rewrite lookup_singleton_ne by done;
    by intros [? ?].
Qed.

Lemma attrib_set_present k v a :
  attrib_get k a = Some v → attrib_set k v a = a.
Proof.
  induction a as [|[k0 v0] a IH]; simpl; [done|].
  destruct (String.eqb k0 k); [by intros [= ->]|]. intros H. by rewrite IH.
Qed.

Lemma attrib_get_value_ok (ok : string → bool) k v a :
  attrib_get k a = Some v → forallb (λ kv, ok kv.2) a = true → ok v = true.
Proof.
  induction a as [|[k0 v0] a IH]; simpl; [done|].
  rewrite andb_true_iff. destruct (String.eqb k0 k).
  - by intros [= ->] [? _].
  - intros Hget [_ Hall]. by apply IH.
Qed.

(** X5.  Rendering with the colour the root already has is rendering
    without [fill]: the same log, the same dictionary, the same
    outcome. *)
Theorem fill_with_present_value (w : World) (p : Path) (content : string)
    (tree : ElementTree) (v : string) (scale_to_width scale_to_height scale : pyval) :
  read_text w p = inr content →
  etree_parse w content = Returned tree →
  attrib_get "fill" (attrib (getroot tree)) = Some v →
  svg_to_image w (SrcPath p) (Some v) scale_to_width scale_to_height scale
  = svg_to_image w (SrcPath p) None scale_to_width scale_to_height scale.
Proof.
  intros Hopen Hparse Hfill.
  assert (Hv : xml_compatible w v = true).
  { apply (attrib_get_value_ok _ _ _ _ Hfill).
    apply (parsed_attrib_ok w content tree Hparse). }
  rewrite (svg_to_image_path w _ _ _ (Some v) _ _ _ Hopen Hparse Hv).
  rewrite (svg_to_image_path w _ _ _ None _ _ _ Hopen Hparse eq_refl). simpl.
  assert (Hsame : put_root_attrib "fill" v tree = tree).
  { unfold put_root_attrib. destruct tree as [d [t a x c l]]. simpl in *.
    by rewrite (attrib_set_present _ _ _ Hfill). }
  by rewrite Hsame.
Qed.

Lemma svg_to_image_parse_error_witness :
  svg_to_image DemoBroken.world (SrcPath DemoBroken.broken_path)
    None PyNone PyNone (PyInt 1)
  = ([EvOpen DemoBroken.broken_path; EvParse "not xml"],
     Raised (XMLSyntaxError "Start tag expected, '<' not found, line 1, column 1")).
Proof.
  apply (svg_to_image_parse_error DemoBroken.world DemoBroken.broken_path "not xml").
  - reflexivity.
  - reflexivity.
Defined.

Lemma svg_to_image_ends_as_renderer_witness :
  result (svg_to_image DemoBroken.world
            (SrcPath (Demo.pkg ++ ["svgs"; "brands"; "facebook.svg"]))
            None PyNone PyNone (PyInt 2))
  = SvgImage DemoBroken.world
      (<["scale" := PyInt 2]> {["data" := PyBytes (Demo.write Demo.facebook_tree)]}).
Proof.
  apply (svg_to_image_ends_as_renderer DemoBroken.world
           (SrcPath (Demo.pkg ++ ["svgs"; "brands"; "facebook.svg"]))
           None PyNone PyNone (PyInt 2)).
  apply (list_elem_of_lookup_2 _ 2). reflexivity.
Defined.

Example demo_renderer_error :
  result (svg_to_image DemoBroken.world
            (SrcPath (Demo.pkg ++ ["svgs"; "brands"; "facebook.svg"]))
            None PyNone PyNone (PyInt 2))
  = Raised (TclError "couldn't recognize image data").
Proof. reflexivity. Qed.

Lemma config_keys_witness :
  let kw : gmap string pyval :=
    <["scaletoheight" := PyInt 32]>
      (<["scaletowidth" := PyInt 64]>
         {["data" := PyBytes (Demo.write Demo.facebook_tree)]}) in
  (∃ imgdata, kw !! "data" = Some (PyBytes imgdata)) ∧
  ∀ k, is_Some (kw !! k) →
       k ∈ ["data"; "scaletowidth"; "scaletoheight"; "scale"].
Proof.
  apply (config_keys Demo.world
           (SrcPath (Demo.pkg ++ ["svgs"; "brands"; "facebook.svg"]))
           None (PyInt 64) (PyInt 32) (PyBool true)).
  apply (list_elem_of_lookup_2 _ 2). reflexivity.
Defined.

Lemma fill_with_present_value_witness :
  svg_to_image Demo.world (SrcPath (Demo.pkg ++ ["svgs"; "brands"; "facebook.svg"]))
    (Some "black") (PyInt 64) PyNone (PyInt 1)
  = svg_to_image Demo.world (SrcPath (Demo.pkg ++ ["svgs"; "brands"; "facebook.svg"]))
      None (PyInt 64) PyNone (PyInt 1).
Proof.
  apply (fill_with_present_value Demo.world
           (Demo.pkg ++ ["svgs"; "brands"; "facebook.svg"])
           Demo.facebook_text Demo.facebook_tree "black").
  - reflexivity.
  - reflexivity.
  - reflexivity.
Defined.

(** * Further properties of the resolver *)

Lemma scan_files_finds (icon : string) (files : list Path) (g : Path) :
  g ∈ files → stem g = icon →
  ∃ f, scan_files icon files = ([], Returned f) ∧ f ∈ files ∧ stem f = icon.
Proof.
  intros Hin Hg. induction files as [|h rest IH]; [by apply elem_of_nil in Hin|].
  simpl. destruct (String.eqb (stem h) icon) eqn:Hh.
  - exists h. split_and!; [done|left|by apply String.eqb_eq].
  - apply elem_of_cons in Hin as [->|Hin].
    + apply String.eqb_neq in Hh. done.
    + destruct (IH Hin) as (f & Hscan & Hf & Hstem).
      exists f. split_and!; [done|by right|done].
Qed.

Lemma scan_files_app_r (icon : string) (l1 l2 : list Path) :
  Forall (λ g, stem g ≠ icon) l1 →
  scan_files icon (l1 ++ l2) = scan_files icon l2.
Proof.
  induction 1 as [|g l1 Hg _ IH]; simpl; [done|].
  apply String.eqb_neq in Hg. by rewrite Hg.
Qed.

Lemma entries_no_match (icon : string) (dir : Path) (names : list string) :
  Forall (λ n, stem_of_name n ≠ icon) names →
  Forall (λ g, stem g ≠ icon) (entries dir names).
Proof.
  unfold entries. rewrite Forall_fmap. intros Hall.
  eapply Forall_impl; [exact Hall|].
  intros n Hn. simpl. by rewrite stem_joinpath.
Qed.

Lemma get_icon_file_collect_raised (w : World) (icon : string) (e : exn) :
  result (_collect_svg_files w) = Raised e →
  result (_get_icon_file w icon) = Raised e.
Proof.
  unfold _get_icon_file, result.
  by destruct (_collect_svg_files w) as [t [files|e']]; intros; simplify_eq/=.
Qed.

(** A path is returned only when the three directories could be listed. *)
Lemma get_icon_file_returned_listable (w : World) (icon : string) (f : Path) :
  result (_get_icon_file w icon) = Returned f →
  ∃ bs rs ss,
    listdir w (brands_dir w) = inr bs ∧
    listdir w (regular_dir w) = inr rs ∧
    listdir w (solid_dir w) = inr ss.
Proof.
  intros Hret.
  assert (Hfail : ∀ dir err,
            dir ∈ [brands_dir w; regular_dir w; solid_dir w] →
            listdir w dir = inl err → False).
  { intros dir err Hin Hdir.
    destruct (collect_fail w dir err Hin Hdir) as (d' & e' & _ & _ & Hres).
    apply (get_icon_file_collect_raised w icon) in Hres. congruence. }
  destruct (listdir w (brands_dir w)) as [eb|bs] eqn:Hb;
    [exfalso; eapply Hfail; [|exact Hb]; one_of_three|].
  destruct (listdir w (regular_dir w)) as [er|rs] eqn:Hr;
    [exfalso; eapply Hfail; [|exact Hr]; one_of_three|].
  destruct (listdir w (solid_dir w)) as [es|ss] eqn:Hs;
    [exfalso; eapply Hfail; [|exact Hs]; one_of_three|].
  by exists bs, rs, ss.
Qed.

(** X6.  Whatever the asset store, a path returned by [_get_icon_file]
    has the requested name as its stem and is an entry of one of the
    three asset directories, as that directory was listed. *)
Theorem get_icon_file_returns_listed_entry (w : World) (icon : string) (f : Path) :
  result (_get_icon_file w icon) = Returned f →
  stem f = icon ∧
  ∃ dir names n,
    dir ∈ [brands_dir w; regular_dir w; solid_dir w] ∧
    listdir w dir = inr names ∧
    n ∈ names ∧
    f = joinpath dir [n].
Proof.
  intros Hret.
  destruct (get_icon_file_returned_listable w icon f Hret)
    as (bs & rs & ss & Hb & Hr & Hs).
  rewrite (get_icon_file_listed w icon _ _ _ Hb Hr Hs) in Hret.
  unfold result at 1 in Hret. simpl in Hret.
  apply scan_files_returned in Hret as [Hin Hstem]. split; [done|].
  rewrite !elem_of_app, !elem_of_entries in Hin.
  destruct Hin as [(n & -> & Hn)|[(n & -> & Hn)|(n & -> & Hn)]].
  - exists (brands_dir w), bs, n. split_and!; [one_of_three|done..].
  - exists (regular_dir w), rs, n. split_and!; [one_of_three|done..].
  - exists (solid_dir w), ss, n. split_and!; [one_of_three|done..].
Qed.

Lemma get_icon_file_returns_listed_entry_witness :
  stem (Demo.pkg ++ ["svgs"; "regular"; "bell.svg"]) = "bell" ∧
  ∃ dir names n,
    dir ∈ [brands_dir Demo.world; regular_dir Demo.world; solid_dir Demo.world] ∧
    listdir Demo.world dir = inr names ∧
    n ∈ names ∧
    Demo.pkg ++ ["svgs"; "regular"; "bell.svg"] = joinpath dir [n].
Proof.
  apply (get_icon_file_returns_listed_entry Demo.world "bell").
  reflexivity.
Defined.

(** X7.  When the three directories can be listed and some listed file
    has the requested name as its stem, [_get_icon_file] returns a
    path, and that path has the requested stem: the unknown-icon
    exception is raised only for names no file carries. *)
Theorem get_icon_file_finds_listed_stem (w : World) (icon : string)
    (bs rs ss : list string) (n : string) :
  listdir w (brands_dir w) = inr bs →
  listdir w (regular_dir w) = inr rs →
  listdir w (solid_dir w) = inr ss →
  n ∈ bs ++ rs ++ ss →
  stem_of_name n = icon →
  ∃ f, _get_icon_file w icon
       = ([EvIterdir (brands_dir w); EvIterdir (regular_dir w);
           EvIterdir (solid_dir w)], Returned f) ∧
       stem f = icon.
Proof.
  intros Hb Hr Hs Hin Hstem.
  assert (∃ g, g ∈ entries (brands_dir w) bs ++ entries (regular_dir w) rs
                 ++ entries (solid_dir w) ss ∧ stem g = icon) as (g & Hg & Hgs).
  { rewrite !elem_of_app in Hin.
    destruct Hin as [Hn|[Hn|Hn]];
      [exists (joinpath (brands_dir w) [n])
      |exists (joinpath (regular_dir w) [n])
      |exists (joinpath (solid_dir w) [n])];
      rewrite stem_joinpath, !elem_of_app, !elem_of_entries; split; eauto 6. }
  destruct (scan_files_finds icon _ g Hg Hgs) as (f & Hscan & _ & Hf).
  exists f. rewrite (get_icon_file_listed w icon _ _ _ Hb Hr Hs), Hscan. done.
Qed.

Lemma get_icon_file_finds_listed_stem_witness :
  ∃ f, _get_icon_file Demo.world "star"
       = ([EvIterdir (brands_dir Demo.world); EvIterdir (regular_dir Demo.world);
           EvIterdir (solid_dir Demo.world)], Returned f) ∧
       stem f = "star".
Proof.
  apply (get_icon_file_finds_listed_stem Demo.world "star"
           ["github.svg"; "facebook.svg"] ["bell.svg"; "facebook.svg"]
           ["bell.svg"; "star.svg"] "star.svg").
  - reflexivity.
  - reflexivity.
  - reflexivity.
  - apply (list_elem_of_lookup_2 _ 5). reflexivity.
  - reflexivity.
Defined.

(** ** Stems of file names *)

Lemma string_app_cons (a : Ascii.ascii) (s t : string) :
  String a s +:+ t = String a (s +:+ t).
Proof. reflexivity. Qed.

Lemma rfind_dot_svg (s : string) :
  rfind "."%char (s +:+ ".svg") = Some (String.length s).
Proof.
  induction s as [|a s IH]; [reflexivity|].
  rewrite string_app_cons. simpl. by rewrite IH.
Qed.

Lemma length_app_svg (s : string) :
  String.length (s +:+ ".svg") = String.length s + 4.
Proof.
  induction s as [|a s IH]; [reflexivity|].
  rewrite string_app_cons. simpl. by rewrite IH.
Qed.

Lemma substring_app_prefix (s t : string) :
  String.substring 0 (String.length s) (s +:+ t) = s.
Proof.
  induction s as [|a s IH]; [by destruct t|].
  rewrite string_app_cons. simpl. by rewrite IH.
Qed.

Lemma stem_of_svg_name (s : string) : s ≠ "" → stem_of_name (s +:+ ".svg") = s.
Proof.
  intros Hs. unfold stem_of_name. rewrite rfind_dot_svg, length_app_svg.
  assert (0 < String.length s) as Hpos by (destruct s; [done|simpl; lia]).
  assert ((0 <? String.length s) = true) as -> by (by apply Nat.ltb_lt).
  assert ((String.length s <? String.length s + 4 - 1) = true) as ->
    by (apply Nat.ltb_lt; lia).
  simpl. apply substring_app_prefix.
Qed.

Lemma stem_of_name_empty (n : string) : stem_of_name n = "" → n = "".
Proof.
  unfold stem_of_name. destruct (rfind "."%char n) as [i|]; [|done].
  destruct (0 <? i) eqn:Hi; simpl; [|done].
  destruct (i <? String.length n - 1); [|done].
  apply Nat.ltb_lt in Hi. destruct i as [|i]; [lia|].
  by destruct n.
Qed.

(** X8.  When the three directories can be listed and one of them holds
    a file named after a non-empty icon name with [.svg] appended, the
    resolver returns a path for that name, whatever dots the name
    itself contains. *)
Theorem get_icon_file_finds_svg_file (w : World) (icon : string)
    (bs rs ss : list string) :
  listdir w (brands_dir w) = inr bs →
  listdir w (regular_dir w) = inr rs →
  listdir w (solid_dir w) = inr ss →
  icon ≠ "" →
  icon +:+ ".svg" ∈ bs ++ rs ++ ss →
  ∃ f, result (_get_icon_file w icon) = Returned f ∧ stem f = icon.
Proof.
  intros Hb Hr Hs Hne Hin.
  assert (∃ g, g ∈ entries (brands_dir w) bs ++ entries (regular_dir w) rs
                 ++ entries (solid_dir w) ss ∧ stem g = icon) as (g & Hg & Hgs).
  { rewrite !elem_of_app in Hin.
    destruct Hin as [Hn|[Hn|Hn]];
      [exists (joinpath (brands_dir w) [icon +:+ ".svg"])
      |exists (joinpath (regular_dir w) [icon +:+ ".svg"])
      |exists (joinpath (solid_dir w) [icon +:+ ".svg"])];
      rewrite stem_joinpath, !elem_of_app, !elem_of_entries;
      (split; [eauto 6|by apply stem_of_svg_name]). }
  destruct (scan_files_finds icon _ g Hg Hgs) as (f & Hscan & _ & Hf).
  exists f. rewrite (get_icon_file_listed w icon _ _ _ Hb Hr Hs), Hscan. done.
Qed.

Lemma get_icon_file_finds_svg_file_witness :
  ∃ f, result (_get_icon_file Demo.world "github") = Returned f ∧ stem f = "github".
Proof.
  apply (get_icon_file_finds_svg_file Demo.world "github"
           ["github.svg"; "facebook.svg"] ["bell.svg"; "facebook.svg"]
           ["bell.svg"; "star.svg"]).
  - reflexivity.
  - reflexivity.
  - reflexivity.
  - discriminate.
  - apply (list_elem_of_lookup_2 _ 0). reflexivity.
Defined.

(** X9.  The empty name is never an icon: when the three directories
    can be listed (file names are not empty), [_get_icon_file] raises
    the unknown-icon exception for it, because no file has an empty
    stem. *)
Theorem get_icon_file_empty_name (w : World) (bs rs ss : list string) :
  listdir w (brands_dir w) = inr bs →
  listdir w (regular_dir w) = inr rs →
  listdir w (solid_dir w) = inr ss →
  Forall (λ n, n ≠ "") (bs ++ rs ++ ss) →
  result (_get_icon_file w "")
  = Raised (Exception
      "'' is not a valid icon name. Check spelling and consult https://fontawesome.com/v5.0/icons.").
Proof.
  intros Hb Hr Hs Hnames.
  rewrite (get_icon_file_listed w "" _ _ _ Hb Hr Hs).
  rewrite !Forall_app in Hnames. destruct Hnames as (Hbs & Hrs & Hss).
  assert (Hstems : ∀ names, Forall (λ n, n ≠ "") names →
                     Forall (λ n, stem_of_name n ≠ "") names).
  { intros names Hall. eapply Forall_impl; [exact Hall|].
    intros n Hn Hstem. by apply Hn, stem_of_name_empty. }
  rewrite scan_files_none; [done|].
  rewrite !Forall_app. split_and!; by apply entries_no_match, Hstems.
Qed.

Lemma get_icon_file_empty_name_witness :
  result (_get_icon_file Demo.world "")
  = Raised (Exception
      "'' is not a valid icon name. Check spelling and consult https://fontawesome.com/v5.0/icons.").
Proof.
  apply (get_icon_file_empty_name Demo.world
           ["github.svg"; "facebook.svg"] ["bell.svg"; "facebook.svg"]
           ["bell.svg"; "star.svg"]).
  - reflexivity.
  - reflexivity.
  - reflexivity.
  - repeat constructor; discriminate.
Defined.

Lemma icon_to_image_resolver_error_opens_nothing_witness :
  result (icon_to_image Demo.world_no_regular "facebook"
            (Some "#4267B2") (PyInt 64) PyNone (PyInt 1))
    = Raised (OSError FileNotFoundError (regular_dir Demo.world_no_regular)) ∧
  Forall is_listing
    (trace (icon_to_image Demo.world_no_regular "facebook"
              (Some "#4267B2") (PyInt 64) PyNone (PyInt 1))).
Proof.
  apply (icon_to_image_resolver_error_opens_nothing Demo.world_no_regular "facebook").
  reflexivity.
Defined.

Lemma collect_stops_at (w : World)
    (pre : list Path) (d : Path) (post : list Path) (err : oserror) :
  [brands_dir w; regular_dir w; solid_dir w] = pre ++ d :: post →
  Forall (λ x, ∃ names, listdir w x = inr names) pre →
  listdir w d = inl err →
  _collect_svg_files w = (EvIterdir <$> (pre ++ [d]), Raised (OSError err d)).
Proof.
  intros Hsplit Hpre Hd. unfold _collect_svg_files.
  fold (brands_dir w) (regular_dir w) (solid_dir w).
  destruct pre as [|p1 [|p2 [|p3 pre]]]; simplify_eq/=.
  - by rewrite (iterdir_fail w _ _ Hd).
  - apply Forall_cons in Hpre as [[bs Hb] _].
    rewrite (iterdir_ok w _ _ Hb), bind_returned.
    by rewrite (iterdir_fail w _ _ Hd).
  - apply Forall_cons in Hpre as [[bs Hb] Hpre].
    apply Forall_cons in Hpre as [[rs Hr] _].
    rewrite (iterdir_ok w _ _ Hb), bind_returned.
    rewrite (iterdir_ok w _ _ Hr), bind_returned.
    by rewrite (iterdir_fail w _ _ Hd).
  - by destruct pre.
Qed.

(** X10.  The directories are listed in the order brands, regular,
    solid, and the first one that cannot be listed ends the resolver:
    the exception is that directory's [OSError], and the directories
    after it are not listed at all. *)
Theorem get_icon_file_first_unlistable (w : World) (icon : string)
    (pre : list Path) (d : Path) (post : list Path) (err : oserror) :
  [brands_dir w; regular_dir w; solid_dir w] = pre ++ d :: post →
  Forall (λ x, ∃ names, listdir w x = inr names) pre →
  listdir w d = inl err →
  _get_icon_file w icon = (EvIterdir <$> (pre ++ [d]), Raised (OSError err d)).
Proof.
  intros Hsplit Hpre Hd. unfold _get_icon_file.
  rewrite (collect_stops_at w pre d post err Hsplit Hpre Hd).
  apply bind_raised.
Qed.

Lemma get_icon_file_first_unlistable_witness :
  _get_icon_file Demo.world_no_regular "facebook"
  = (EvIterdir <$> ([brands_dir Demo.world_no_regular]
                    ++ [regular_dir Demo.world_no_regular]),
     Raised (OSError FileNotFoundError (regular_dir Demo.world_no_regular))).
Proof.
  apply (get_icon_file_first_unlistable Demo.world_no_regular "facebook"
           [brands_dir Demo.world_no_regular] (regular_dir Demo.world_no_regular)
           [solid_dir Demo.world_no_regular] FileNotFoundError).
  - reflexivity.
  - constructor; [|constructor]. by exists ["github.svg"; "facebook.svg"].
  - reflexivity.
Defined.

(** X15.  The resolver only lists directories, in the fixed order: its
    log is a beginning of brands, regular, solid, and it is all three
    unless the resolver ended with the [OSError] of a directory. *)
Theorem get_icon_file_log (w : World) (icon : string) :
  trace (_get_icon_file w icon)
    `prefix_of` [EvIterdir (brands_dir w); EvIterdir (regular_dir w);
                 EvIterdir (solid_dir w)] ∧
  (trace (_get_icon_file w icon)
     = [EvIterdir (brands_dir w); EvIterdir (regular_dir w); EvIterdir (solid_dir w)]
   ∨ ∃ err dir, result (_get_icon_file w icon) = Raised (OSError err dir)).
Proof.
  destruct (listdir w (brands_dir w)) as [eb|bs] eqn:Hb.
  { unfold _get_icon_file.
    rewrite (collect_stops_at w [] _ [_; _] eb eq_refl (Forall_nil_2 _) Hb).
    rewrite bind_raised. split; [by eexists|right; by eexists _, _]. }
  destruct (listdir w (regular_dir w)) as [er|rs] eqn:Hr.
  { unfold _get_icon_file.
    rewrite (collect_stops_at w [_] _ [_] er eq_refl
               (Forall_cons_2 _ _ _ (ex_intro _ bs Hb) (Forall_nil_2 _)) Hr).
    rewrite bind_raised. split; [by eexists|right; by eexists _, _]. }
  destruct (listdir w (solid_dir w)) as [es|ss] eqn:Hs.
  { unfold _get_icon_file.
    rewrite (collect_stops_at w [_; _] _ [] es eq_refl
               (Forall_cons_2 _ _ _ (ex_intro _ bs Hb)
                  (Forall_cons_2 _ _ _ (ex_intro _ rs Hr) (Forall_nil_2 _))) Hs).
    rewrite bind_raised. split; [by eexists|right; by eexists _, _]. }
  rewrite (get_icon_file_listed w icon _ _ _ Hb Hr Hs).
  split; [done|by left].
Qed.

(** X16.  When the three directories can be listed, [_collect_svg_files]
    returns one path per listed name, in the order brands, regular,
    solid and, within a directory, in the order of the listing: the
    names of the paths are the listed names, and each path lies in the
    directory that listed it. *)
Theorem collect_svg_files_names (w : World) (bs rs ss : list string) :
  listdir w (brands_dir w) = inr bs →
  listdir w (regular_dir w) = inr rs →
  listdir w (solid_dir w) = inr ss →
  ∃ files,
    result (_collect_svg_files w) = Returned files ∧
    name <$> files = bs ++ rs ++ ss ∧
    parent <$> files
      = replicate (length bs) (brands_dir w) ++ replicate (length rs) (regular_dir w)
        ++ replicate (length ss) (solid_dir w).
Proof.
  intros Hb Hr Hs. rewrite (collect_ok w _ _ _ Hb Hr Hs). eexists. split; [done|].
  assert (Hname : ∀ dir names, name <$> entries dir names = names).
  { intros dir names. unfold entries. rewrite <- list_fmap_compose.
    induction names as [|n names IH]; [done|].
    simpl. rewrite name_joinpath. by f_equal. }
  assert (Hparent : ∀ dir names,
            parent <$> entries dir names = replicate (length names) dir).
  { intros dir names. unfold entries. rewrite <- list_fmap_compose.
    induction names as [|n names IH]; [done|].
    simpl. rewrite parent_joinpath. by f_equal. }
  by rewrite !fmap_app, !Hname, !Hparent.
Qed.

Lemma collect_svg_files_names_witness :
  ∃ files,
    result (_collect_svg_files Demo.world) = Returned files ∧
    name <$> files
      = ["github.svg"; "facebook.svg"] ++ ["bell.svg"; "facebook.svg"]
        ++ ["bell.svg"; "star.svg"] ∧
    parent <$> files
      = replicate 2 (brands_dir Demo.world) ++ replicate 2 (regular_dir Demo.world)
        ++ replicate 2 (solid_dir Demo.world).
Proof.
  apply (collect_svg_files_names Demo.world
           ["github.svg"; "facebook.svg"] ["bell.svg"; "facebook.svg"]
           ["bell.svg"; "star.svg"]).
  - reflexivity.
  - reflexivity.
  - reflexivity.
Defined.

(** X13.  When the three directories can be listed and exactly one
    listed file has the requested name as its stem (the asset set has no
    collision), the resolver returns that file. *)
Theorem get_icon_file_unique_stem (w : World) (icon : string)
    (bs rs ss : list string) (f : Path) :
  listdir w (brands_dir w) = inr bs →
  listdir w (regular_dir w) = inr rs →
  listdir w (solid_dir w) = inr ss →
  f ∈ entries (brands_dir w) bs ++ entries (regular_dir w) rs
        ++ entries (solid_dir w) ss →
  stem f = icon →
  (∀ g, g ∈ entries (brands_dir w) bs ++ entries (regular_dir w) rs
              ++ entries (solid_dir w) ss →
        stem g = icon → g = f) →
  result (_get_icon_file w icon) = Returned f.
Proof.
  intros Hb Hr Hs Hin Hstem Huniq.
  rewrite (get_icon_file_listed w icon _ _ _ Hb Hr Hs).
  destruct (scan_files_finds icon _ f Hin Hstem) as (f' & Hscan & Hin' & Hstem').
  rewrite Hscan. unfold result. simpl. f_equal. by apply Huniq.
Qed.

Lemma get_icon_file_unique_stem_witness :
  result (_get_icon_file Demo.world "star")
  = Returned (Demo.pkg ++ ["svgs"; "solid"; "star.svg"]).
Proof.
  apply (get_icon_file_unique_stem Demo.world "star"
           ["github.svg"; "facebook.svg"] ["bell.svg"; "facebook.svg"]
           ["bell.svg"; "star.svg"]).
  - reflexivity.
  - reflexivity.
  - reflexivity.
  - apply (list_elem_of_lookup_2 _ 5). reflexivity.
  - reflexivity.
  - intros g Hg Hstem. change (g ∈ [
        Demo.pkg ++ ["svgs"; "brands"; "github.svg"];
        Demo.pkg ++ ["svgs"; "brands"; "facebook.svg"];
        Demo.pkg ++ ["svgs"; "regular"; "bell.svg"];
        Demo.pkg ++ ["svgs"; "regular"; "facebook.svg"];
        Demo.pkg ++ ["svgs"; "solid"; "bell.svg"];
        Demo.pkg ++ ["svgs"; "solid"; "star.svg"]]) in Hg.
    rewrite !elem_of_cons, elem_of_nil in Hg.
    destruct Hg as [->|[->|[->|[->|[->|[->|[]]]]]]];
      first [reflexivity | vm_compute in Hstem; discriminate].
Defined.

(** X14.  Directory precedence beyond brands: when the three directories
    can be listed and no file of brands has the requested stem, a file
    of regular with that stem is returned even if solid has one too;
    and a file of solid is returned when neither brands nor regular has
    one. *)
Theorem get_icon_file_directory_precedence (w : World) (icon : string)
    (bs rs ss : list string) :
  listdir w (brands_dir w) = inr bs →
  listdir w (regular_dir w) = inr rs →
  listdir w (solid_dir w) = inr ss →
  Forall (λ n, stem_of_name n ≠ icon) bs →
  ((∃ r, r ∈ rs ∧ stem_of_name r = icon) →
   ∃ r', r' ∈ rs ∧ stem_of_name r' = icon ∧
         result (_get_icon_file w icon) = Returned (joinpath (regular_dir w) [r'])) ∧
  (Forall (λ n, stem_of_name n ≠ icon) rs →
   (∃ s, s ∈ ss ∧ stem_of_name s = icon) →
   ∃ s', s' ∈ ss ∧ stem_of_name s' = icon ∧
         result (_get_icon_file w icon) = Returned (joinpath (solid_dir w) [s'])).
Proof.
  intros Hb Hr Hs Hbs.
  rewrite (get_icon_file_listed w icon _ _ _ Hb Hr Hs). unfold result. simpl.
  rewrite (scan_files_app_r icon _ _ (entries_no_match icon _ _ Hbs)).
  assert (Hdir : ∀ dir names n, n ∈ names → stem_of_name n = icon →
            ∃ n', n' ∈ names ∧ stem_of_name n' = icon ∧
                  scan_files icon (entries dir names)
                  = ([], Returned (joinpath dir [n']))).
  { intros dir names n Hn Hstem.
    destruct (scan_files_finds icon (entries dir names) (joinpath dir [n]))
      as (f & Hscan & Hf & Hfs).
    - apply elem_of_entries. by exists n.
    - by rewrite stem_joinpath.
    - apply elem_of_entries in Hf as (n' & -> & Hn').
      exists n'. rewrite stem_joinpath in Hfs. done. }
  split.
  - intros (r & Hin & Hstem).
    destruct (Hdir (regular_dir w) rs r Hin Hstem) as (r' & Hr' & Hsr' & Hscan).
    exists r'. split_and!; [done..|].
    rewrite (scan_files_app_l icon _ _ (joinpath (regular_dir w) [r'])).
    + by rewrite Hscan.
    + apply elem_of_entries. by exists r'.
    + by rewrite stem_joinpath.
  - intros Hrs (s & Hin & Hstem).
    rewrite (scan_files_app_r icon _ _ (entries_no_match icon _ _ Hrs)).
    destruct (Hdir (solid_dir w) ss s Hin Hstem) as (s' & Hs' & Hss' & Hscan).
    exists s'. by rewrite Hscan.
Qed.

Lemma get_icon_file_directory_precedence_witness :
  ((∃ r, r ∈ ["bell.svg"; "facebook.svg"] ∧ stem_of_name r = "bell") →
   ∃ r', r' ∈ ["bell.svg"; "facebook.svg"] ∧ stem_of_name r' = "bell" ∧
         result (_get_icon_file Demo.world "bell")
         = Returned (joinpath (regular_dir Demo.world) [r'])) ∧
  (Forall (λ n, stem_of_name n ≠ "bell") ["bell.svg"; "facebook.svg"] →
   (∃ s, s ∈ ["bell.svg"; "star.svg"] ∧ stem_of_name s = "bell") →
   ∃ s', s' ∈ ["bell.svg"; "star.svg"] ∧ stem_of_name s' = "bell" ∧
         result (_get_icon_file Demo.world "bell")
         = Returned (joinpath (solid_dir Demo.world) [s'])).
Proof.
  apply (get_icon_file_directory_precedence Demo.world "bell"
           ["github.svg"; "facebook.svg"] ["bell.svg"; "facebook.svg"]
           ["bell.svg"; "star.svg"]).
  - reflexivity.
  - reflexivity.
  - reflexivity.
  - repeat constructor; vm_compute; discriminate.
Defined.

(** * Further properties of the lookup *)

(** X12.  End to end: when the three directories can be listed, [f] is
    the first file with the requested stem, [f] opens and parses, and
    [fill] is [None] or a string lxml takes as an attribute value,
    [icon_to_image] lists the three directories, opens [f], parses it,
    and calls the renderer once, with the serialisation of the (possibly
    recoloured) tree and the size keys; it ends as the renderer ends. *)
Theorem icon_to_image_renders_first_match (w : World) (icon : string)
    (fill : option string) (scale_to_width scale_to_height scale : pyval)
    (bs rs ss : list string) (pre : list Path) (f : Path) (post : list Path)
    (content : string) (tree : ElementTree) :
  listdir w (brands_dir w) = inr bs →
  listdir w (regular_dir w) = inr rs →
  listdir w (solid_dir w) = inr ss →
  entries (brands_dir w) bs ++ entries (regular_dir w) rs ++ entries (solid_dir w) ss
    = pre ++ f :: post →
  Forall (λ g, stem g ≠ icon) pre →
  stem f = icon →
  read_text w f = inr content →
  etree_parse w content = Returned tree →
  fill_accepted w fill = true →
  let kw := keywords (etree_write w (written_tree fill tree))
              scale_to_width scale_to_height scale in
  icon_to_image w icon fill scale_to_width scale_to_height scale
  = ([EvIterdir (brands_dir w); EvIterdir (regular_dir w); EvIterdir (solid_dir w);
      EvOpen f; EvParse content; EvSvgImage kw],
     SvgImage w kw).
Proof.
  intros Hb Hr Hs Hsplit Hpre Hf Hopen Hparse Hfill kw.
  unfold icon_to_image.
  rewrite (get_icon_file_listed w icon _ _ _ Hb Hr Hs), Hsplit.
  rewrite (scan_files_first icon _ _ _ Hpre Hf). unfold result at 1. simpl snd.
  rewrite bind_returned, bind_ret_r.
  by rewrite (svg_to_image_path w _ _ _ _ _ _ _ Hopen Hparse Hfill).
Qed.

Lemma icon_to_image_renders_first_match_witness :
  icon_to_image Demo.world "facebook" (Some "#4267B2") (PyInt 64) PyNone (PyInt 1)
  = ([EvIterdir (brands_dir Demo.world); EvIterdir (regular_dir Demo.world);
      EvIterdir (solid_dir Demo.world);
      EvOpen (Demo.pkg ++ ["svgs"; "brands"; "facebook.svg"]);
      EvParse Demo.facebook_text;
      EvSvgImage
        (keywords
           (etree_write Demo.world
              (written_tree (Some "#4267B2") Demo.facebook_tree))
           (PyInt 64) PyNone (PyInt 1))],
     SvgImage Demo.world
       (keywords
          (etree_write Demo.world
             (written_tree (Some "#4267B2") Demo.facebook_tree))
          (PyInt 64) PyNone (PyInt 1))).
Proof.
  apply (icon_to_image_renders_first_match Demo.world "facebook"
           (Some "#4267B2") (PyInt 64) PyNone (PyInt 1)
           ["github.svg"; "facebook.svg"] ["bell.svg"; "facebook.svg"]
           ["bell.svg"; "star.svg"]
           [Demo.pkg ++ ["svgs"; "brands"; "github.svg"]]
           (Demo.pkg ++ ["svgs"; "brands"; "facebook.svg"])
           (entries (regular_dir Demo.world) ["bell.svg"; "facebook.svg"]
            ++ entries (solid_dir Demo.world) ["bell.svg"; "star.svg"])
           Demo.facebook_text Demo.facebook_tree).
  - reflexivity.
  - reflexivity.
  - reflexivity.
  - reflexivity.
  - constructor; [|constructor]. vm_compute. discriminate.
  - reflexivity.
  - reflexivity.
  - reflexivity.
  - reflexivity.
Defined.

(** X17.  When the resolver returns a file, a failure of the renderer
    on that file is the failure of the lookup: a file that cannot be
    opened gives its [OSError] after the three listings and the attempt
    to open, and a file that does not parse gives the parser's
    exception after the parse; in both cases the renderer is not
    called. *)
Theorem icon_to_image_source_error (w : World) (icon : string)
    (fill : option string) (scale_to_width scale_to_height scale : pyval)
    (f : Path) :
  result (_get_icon_file w icon) = Returned f →
  (∀ err, read_text w f = inl err →
     icon_to_image w icon fill scale_to_width scale_to_height scale
     = ([EvIterdir (brands_dir w); EvIterdir (regular_dir w); EvIterdir (solid_dir w);
         EvOpen f], Raised (OSError err f))) ∧
  (∀ content e, read_text w f = inr content → etree_parse w content = Raised e →
     icon_to_image w icon fill scale_to_width scale_to_height scale
     = ([EvIterdir (brands_dir w); EvIterdir (regular_dir w); EvIterdir (solid_dir w);
         EvOpen f; EvParse content], Raised e)).
Proof.
  intros Hret.
  destruct (get_icon_file_returned_listable w icon f Hret)
    as (bs & rs & ss & Hb & Hr & Hs).
  pose proof (get_icon_file_listed w icon _ _ _ Hb Hr Hs) as Hget.
  rewrite Hget in Hret. unfold result at 1 in Hret. simpl in Hret.
  rewrite Hret in Hget. unfold icon_to_image. rewrite Hget.
  rewrite bind_returned, bind_ret_r. split.
  - intros err Hopen. unfold svg_to_image, py_open. simpl. by rewrite Hopen.
  - intros content e Hopen Hparse. unfold svg_to_image, py_open, parse. simpl.
    rewrite Hopen. simpl. by rewrite Hparse.
Qed.

Lemma icon_to_image_source_error_witness :
  (∀ err, read_text DemoBroken.world DemoBroken.broken_path = inl err →
     icon_to_image DemoBroken.world "broken" None PyNone PyNone (PyInt 1)
     = ([EvIterdir (brands_dir DemoBroken.world);
         EvIterdir (regular_dir DemoBroken.world);
         EvIterdir (solid_dir DemoBroken.world);
         EvOpen DemoBroken.broken_path],
        Raised (OSError err DemoBroken.broken_path))) ∧
  (∀ content e,
     read_text DemoBroken.world DemoBroken.broken_path = inr content →
     etree_parse DemoBroken.world content = Raised e →
     icon_to_image DemoBroken.world "broken" None PyNone PyNone (PyInt 1)
     = ([EvIterdir (brands_dir DemoBroken.world);
         EvIterdir (regular_dir DemoBroken.world);
         EvIterdir (solid_dir DemoBroken.world);
         EvOpen DemoBroken.broken_path; EvParse content], Raised e)).
Proof.
  apply (icon_to_image_source_error DemoBroken.world "broken"
           None PyNone PyNone (PyInt 1) DemoBroken.broken_path).
  reflexivity.
Defined.

Example demo_broken_icon :
  icon_to_image DemoBroken.world "broken" None PyNone PyNone (PyInt 1)
  = ([EvIterdir (brands_dir DemoBroken.world);
      EvIterdir (regular_dir DemoBroken.world);
      EvIterdir (solid_dir DemoBroken.world);
      EvOpen DemoBroken.broken_path; EvParse "not xml"],
     Raised (XMLSyntaxError "Start tag expected, '<' not found, line 1, column 1")).
Proof. reflexivity. Qed.

(** X18.  When the source opens and parses but [fill] is a string lxml
    does not take as an attribute value, [svg_to_image] raises the
    [ValueError] of the assignment right after the parse: nothing is
    serialised, no dictionary is passed to the renderer and no image is
    returned. *)
Theorem svg_to_image_fill_refused (w : World) (p : Path) (content : string)
    (tree : ElementTree) (v : string) (scale_to_width scale_to_height scale : pyval) :
  read_text w p = inr content →
  etree_parse w content = Returned tree →
  xml_compatible w v = false →
  svg_to_image w (SrcPath p) (Some v) scale_to_width scale_to_height scale
    = ([EvOpen p; EvParse content], Raised (ValueError not_xml_compatible)) ∧
  ∀ kw, ¬ config_passed w (SrcPath p) (Some v) scale_to_width scale_to_height scale kw.
Proof.
  intros Hopen Hparse Hv.
  pose proof (svg_to_image_refused w p content tree v
                scale_to_width scale_to_height scale Hopen Hparse Hv) as Hrun.
  split; [done|].
  intros kw. unfold config_passed. rewrite Hrun. simpl.
  rewrite !elem_of_cons, elem_of_nil. intros [?|[?|[]]]; discriminate.
Qed.

Lemma svg_to_image_fill_refused_witness :
  svg_to_image Demo.world (SrcPath (Demo.pkg ++ ["svgs"; "regular"; "bell.svg"]))
    (Some (String "007"%char "red")) (PyInt 64) PyNone (PyInt 1)
    = ([EvOpen (Demo.pkg ++ ["svgs"; "regular"; "bell.svg"]); EvParse Demo.bell_text],
       Raised (ValueError not_xml_compatible)) ∧
  ∀ kw, ¬ config_passed Demo.world
            (SrcPath (Demo.pkg ++ ["svgs"; "regular"; "bell.svg"]))
            (Some (String "007"%char "red")) (PyInt 64) PyNone (PyInt 1) kw.
Proof.
  apply (svg_to_image_fill_refused Demo.world
           (Demo.pkg ++ ["svgs"; "regular"; "bell.svg"])
           Demo.bell_text Demo.bell_tree).
  - reflexivity.
  - reflexivity.
  - reflexivity.
Defined.
